(** * check_opinions_chancery.py: the Court of Chancery opinion monitor

    A shallow embedding of [src/check_opinions_chancery.py].  The script
    loads the list of opinions it has already delivered, scrapes the court's
    page with a headless browser, keeps the opinions whose address it has not
    seen, downloads their PDFs, mails them, and records them as seen when
    the mail went out.

    Everything outside the script is an explicit input: the files on disk
    are a finite map from paths to contents, the browser, the web server,
    the mail session, the operating system's consent to a write and the
    clock are oracles gathered in [env], and the [json] module is an
    interface ([JsonCodec]) with its round-trip law.
    Exceptions are values ([Raise]); a step that raises leaves the state as
    it was when the exception left it. *)

From Stdlib Require Import ZArith Ascii String List Lia.
From stdpp Require Import base tactics option list strings gmap pretty.

Open Scope string_scope.

(** ** Python strings

    A [str] is modelled by its UTF-8 bytes.  The needles the script searches
    for are ASCII, so byte-wise search and ASCII case folding agree with
    Python's on them. *)

Definition is_upper (c : ascii) : bool :=
  (65 <=? nat_of_ascii c)%nat && (nat_of_ascii c <=? 90)%nat.

Definition lower_ascii (c : ascii) : ascii :=
  if is_upper c then ascii_of_nat (nat_of_ascii c + 32) else c.

(** [s.lower()] *)
Fixpoint lower (s : string) : string :=
  match s with
  | EmptyString => EmptyString
  | String c r => String (lower_ascii c) (lower r)
  end.

(** [needle in hay] *)
Fixpoint contains (needle hay : string) : bool :=
  if String.prefix needle hay then true
  else match hay with
       | EmptyString => false
       | String _ r => contains needle r
       end.

(** The characters [str.strip()] removes: tab, line feed, vertical tab, form
    feed, carriage return, the four separators 28-31 and the space. *)
Definition is_space (c : ascii) : bool :=
  let n := nat_of_ascii c in
  ((9 <=? n)%nat && (n <=? 13)%nat) || ((28 <=? n)%nat && (n <=? 32)%nat).

Fixpoint lstrip (s : string) : string :=
  match s with
  | EmptyString => EmptyString
  | String c r => if is_space c then lstrip r else s
  end.

Fixpoint rstrip (s : string) : string :=
  match s with
  | EmptyString => EmptyString
  | String c r =>
      match rstrip r with
      | EmptyString => if is_space c then EmptyString else String c EmptyString
      | r' => String c r'
      end
  end.

(** [s.strip()] *)
Definition strip (s : string) : string := rstrip (lstrip s).

(** Truth value of a [str]: non-empty. *)
Definition truthy (s : string) : bool :=
  match s with EmptyString => false | String _ _ => true end.

Fixpoint split_last (cur s : string) : string :=
  match s with
  | EmptyString => cur
  | String c r =>
      if Ascii.eqb c "/" then split_last EmptyString r
      else split_last (cur +:+ String c EmptyString) r
  end.

(** [s.split("/")[-1]] *)
Definition last_segment (s : string) : string := split_last EmptyString s.

(** ** Python values

    The values [json.load] can return, which are also the values the script
    hands to [json.dump].  A [dict] keeps its items in insertion order. *)

#[warnings="-register-all"]
Inductive pyval : Type :=
  | PNone
  | PBool (b : bool)
  | PInt (z : Z)
  | PFloat (bits : Z)
  | PStr (s : string)
  | PList (l : list pyval)
  | PDict (items : list (string * pyval)).

Inductive exn : Type :=
  | JSONDecodeError
  | ValueError
  | RecursionError
  | UnicodeDecodeError
  | OSError
  | KeyError
  | TypeError
  | AttributeError
  | WebDriverException
  | StaleElementReferenceException
  | RequestException
  | FileExistsError
  | IsADirectoryError
  | SMTPException.

Inductive result (A : Type) : Type :=
  | Ok (a : A)
  | Raise (x : exn).
Arguments Ok {A} a.
Arguments Raise {A} x.

(** An opinion as the scraper builds it: the dict literal
    [{"title": text, "url": href, "date_found": ...}]. *)
Record Opinion : Type := mkOpinion
  { title : string; url : string; date_found : string }.

Definition opinion_dict (op : Opinion) : pyval :=
  PDict [("title", PStr (title op)); ("url", PStr (url op));
         ("date_found", PStr (date_found op))].

(** [d[key]] on a dict's items. *)
Fixpoint dict_get (key : string) (items : list (string * pyval)) : option pyval :=
  match items with
  | [] => None
  | (k, v) :: rest => if String.eqb k key then Some v else dict_get key rest
  end.

(** [op["url"]] for an arbitrary value: a dict is looked up (KeyError when
    the key is missing); every other JSON value refuses a string subscript. *)
Definition getitem_url (op : pyval) : result pyval :=
  match op with
  | PDict items =>
      match dict_get "url" items with
      | Some v => Ok v
      | None => Raise KeyError
      end
  | _ => Raise TypeError
  end.

(** Lists and dicts cannot be members of a set. *)
Definition hashable (v : pyval) : bool :=
  match v with
  | PList _ | PDict _ => false
  | _ => true
  end.

Fixpoint chars (s : string) : list pyval :=
  match s with
  | EmptyString => []
  | String c r => PStr (String c EmptyString) :: chars r
  end.

(** [for op in v]: a list yields its elements, a dict its keys, a str its
    characters; the other JSON values are not iterable. *)
Definition py_iter (v : pyval) : result (list pyval) :=
  match v with
  | PList l => Ok l
  | PDict items => Ok (map (fun kv => PStr (fst kv)) items)
  | PStr s => Ok (chars s)
  | _ => Raise TypeError
  end.

Fixpoint collect_urls (ops : list pyval) : result (list pyval) :=
  match ops with
  | [] => Ok []
  | op :: rest =>
      match getitem_url op with
      | Raise x => Raise x
      | Ok u =>
          if hashable u then
            match collect_urls rest with
            | Ok us => Ok (u :: us)
            | Raise x => Raise x
            end
          else Raise TypeError
      end
  end.

(** Line 166: [seen_urls = {op["url"] for op in seen_opinions}].  The set is
    only ever asked for membership, so its elements are kept as a list. *)
Definition seen_urls_of (seen_opinions : pyval) : result (list pyval) :=
  match py_iter seen_opinions with
  | Ok ops => collect_urls ops
  | Raise x => Raise x
  end.

(** [u in seen_urls] for a str [u]: a str is equal to a str only. *)
Definition str_in (u : string) (seen_urls : list pyval) : bool :=
  existsb (fun v => match v with PStr s => String.eqb u s | _ => false end)
          seen_urls.

(** Line 172: [[op for op in current_opinions if op["url"] not in seen_urls]] *)
Definition new_opinions_of (current_opinions : list Opinion)
    (seen_urls : list pyval) : list Opinion :=
  List.filter (fun op => negb (str_in (url op) seen_urls)) current_opinions.

(** [seen_opinions.extend(new_opinions)]: only a list has [extend]. *)
Definition py_extend (seen_opinions : pyval) (new_opinions : list Opinion)
    : result pyval :=
  match seen_opinions with
  | PList l => Ok (PList (l ++ map opinion_dict new_opinions))
  | _ => Raise AttributeError
  end.

(** ** The [json] module

    [json.dump] and [json.load] are library code.  They enter as an
    interface: a printer, a reader, and the law that reading what was
    printed gives the value back, for the values [json.load] itself can
    produce ([pyval]).  The reader takes the bytes of the file and either
    returns a value or raises: a [JSONDecodeError] on text that is no
    JSON, but also a [UnicodeDecodeError] on bytes that are no text, a
    [RecursionError] on a document nested too deeply, or a [ValueError]
    on an integer of more than 4300 digits. *)

Class JsonCodec : Type := mkJsonCodec
  { json_dumps : pyval -> string;
    json_loads : string -> result pyval;
    json_roundtrip : forall v, json_loads (json_dumps v) = Ok v }.

(** ** The outside world *)

(** An anchor element of the rendered page: its [href] (absent when the
    element has none), its text, and whether it can still be read when the
    script gets to it (a stale element raises on every access).  The page's
    links are taken to be absolute addresses, so the attribute the XPath
    search inspects and the value [get_attribute("href")] returns are the
    same string. *)
Record anchor : Type := mkAnchor
  { href : option string; text : string; readable : bool }.

(** The browser session: which of its calls succeed, and the anchors of the
    rendered page in document order. *)
Record browser : Type := mkBrowser
  { setup_ok : bool;
    get_ok : bool;
    find_pdf_ok : bool;
    find_all_ok : bool;
    quit_ok : bool;
    dom : list anchor }.

(** A composed message: headers, the plain-text part, and the attached
    files as (file name, content). *)
Record email : Type := mkEmail
  { e_from : string;
    e_to : string;
    e_subject : string;
    e_body : string;
    e_attachments : list (string * string) }.

(** How the mail session of lines 149-152 ends.  The [with] block
    connects, switches to TLS, logs in, hands the message over and, on
    leaving, sends [QUIT]; each step can raise. *)
Inductive session : Type :=
  | NoSession    (* connecting, [starttls] or [login] raised: nothing handed over *)
  | Refused      (* [send_message] raised: the server did not take the message *)
  | QuitFailed   (* the server took the message; leaving the block raised *)
  | Delivered.   (* the block ran through *)

(** What a run cannot decide for itself.  [clock_iso n] and [clock_ymd n]
    are the two renderings of the [n]-th reading of the clock; [http url]
    is the body of a successful response; [mail m] is how the mail
    session for message [m] ends; [fs_accepts path] tells whether the
    operating system lets the script create the directory, or create or
    truncate the file, at [path] (it refuses, for instance, a file name of
    more than 255 bytes). *)
Record env : Type := mkEnv
  { clock_iso : nat -> string;
    clock_ymd : nat -> string;
    page : browser;
    http : string -> option string;
    mail : email -> session;
    fs_accepts : string -> bool;
    EMAIL_FROM : string;
    EMAIL_TO : string }.

(** Whether the [with] block of lines 149-152 runs through for [m]. *)
Definition smtp (e : env) (m : email) : bool :=
  match mail e m with
  | Delivered => true
  | _ => false
  end.

(** Whether the server took message [m]. *)
Definition accepted (e : env) (m : email) : bool :=
  match mail e m with
  | Delivered | QuitFailed => true
  | _ => false
  end.

(** What a run asks of others, whatever the answer: a request to the web
    server, a mail session attempted for a message. *)
Inductive event : Type :=
  | EvGet (url : string)
  | EvSend (m : email).

(** The state a run works on: the regular files by path, whether the
    [downloads] directory exists, the number of clock readings so far, and
    the requests made and mail sessions attempted so far (latest last).
    Paths name files as on a case-sensitive file system, and the
    seen-opinions path is absent or a regular file the script can read
    and write. *)
Record world : Type := mkWorld
  { files : gmap string string;
    downloads_dir : bool;
    ticks : nat;
    trace : list event }.

Definition set_files (f : gmap string string -> gmap string string) (w : world) : world :=
  mkWorld (f (files w)) (downloads_dir w) (ticks w) (trace w).
Definition set_downloads_dir (b : bool) (w : world) : world :=
  mkWorld (files w) b (ticks w) (trace w).
Definition tick (w : world) : world :=
  mkWorld (files w) (downloads_dir w) (S (ticks w)) (trace w).
Definition emit (ev : event) (w : world) : world :=
  mkWorld (files w) (downloads_dir w) (ticks w) (trace w ++ [ev]).

(** ** Stateful, fallible computations *)

Definition ST (S A : Type) : Type := S -> result A * S.

Definition ret {S A} (a : A) : ST S A := fun s => (Ok a, s).
Definition raise {S A} (x : exn) : ST S A := fun s => (Raise x, s).
Definition bind {S A B} (m : ST S A) (k : A -> ST S B) : ST S B :=
  fun s => match m s with
           | (Ok a, s') => k a s'
           | (Raise x, s') => (Raise x, s')
           end.
Definition modify {S} (f : S -> S) : ST S unit := fun s => (Ok tt, f s).
Definition get_state {S} : ST S S := fun s => (Ok s, s).
Definition lift_result {S A} (r : result A) : ST S A := fun s => (r, s).

(** [try: body except: handler] *)
Definition try_except {S A} (body : ST S A) (handler : exn -> ST S A) : ST S A :=
  fun s => match body s with
           | (Ok a, s') => (Ok a, s')
           | (Raise x, s') => handler x s'
           end.

(** [try: body finally: fin].  An exception of [fin] replaces the outcome
    of [body]. *)
Definition try_finally {S A} (body : ST S A) (fin : ST S unit) : ST S A :=
  fun s => match body s with
           | (r, s') =>
               match fin s' with
               | (Ok _, s'') => (r, s'')
               | (Raise x, s'') => (Raise x, s'')
               end
           end.

Declare Scope st_scope.
Delimit Scope st_scope with st.
Notation "x <- m ;; k" := (bind m (fun x => k))
  (at level 100, m at next level, right associativity) : st_scope.
Notation "m ;;; k" := (bind m (fun _ => k))
  (at level 100, right associativity) : st_scope.
Open Scope st_scope.

Abbreviation M := (ST world).

Definition SEEN_OPINIONS_FILE : string := "seen_opinions.json".

Section Monitor.

Context {codec : JsonCodec}.
Variable e : env.

(** [datetime.now()], rendered by [isoformat()] or [strftime('%Y-%m-%d')]. *)
Definition now_iso : M string :=
  fun w => (Ok (clock_iso e (ticks w)), tick w).
Definition now_ymd : M string :=
  fun w => (Ok (clock_ymd e (ticks w)), tick w).

(** Lines 26-31. *)
Definition load_seen_opinions : M pyval :=
  fun w =>
    match files w !! SEEN_OPINIONS_FILE with
    | Some content => (json_loads content, w)
    | None => (Ok (PList []), w)
    end.

(** Lines 33-36.  Mode ["w"] replaces whatever the file held. *)
Definition save_seen_opinions (opinions : pyval) : M unit :=
  modify (set_files (insert SEEN_OPINIONS_FILE (json_dumps opinions))).

(** *** The page renderer (lines 38-107) *)

(** Lines 38-49: starting the browser may fail. *)
Definition setup_driver : M unit :=
  if setup_ok (page e) then ret tt else raise WebDriverException.

(** While the scraper runs, its local list [opinions] is part of the state:
    what was appended before an exception is still there after it. *)
Abbreviation Scraping := (ST (list Opinion * world)).

Definition in_world {A} (m : M A) : Scraping A :=
  fun s => match m (snd s) with (r, w') => (r, (fst s, w')) end.

Definition append_opinion (op : Opinion) : Scraping unit :=
  modify (fun s => ((fst s ++ [op])%list, snd s)).

(** Line 59 *)
Definition driver_get : Scraping unit :=
  if get_ok (page e) then ret tt else raise WebDriverException.

Definition has_pdf (a : anchor) : bool :=
  match href a with
  | Some h => contains ".pdf" h
  | None => false
  end.

(** Line 64: [find_elements(By.XPATH, "//a[contains(@href, '.pdf')]")] *)
Definition find_pdf_links : Scraping (list anchor) :=
  if find_pdf_ok (page e) then ret (List.filter has_pdf (dom (page e)))
  else raise WebDriverException.

(** Line 84: [find_elements(By.TAG_NAME, "a")] *)
Definition find_all_links : Scraping (list anchor) :=
  if find_all_ok (page e) then ret (dom (page e)) else raise WebDriverException.

(** Lines 69-70 and 89-90: [link.get_attribute("href")] and
    [link.text.strip()]. *)
Definition read_link (a : anchor) : result (option string * string) :=
  if readable a then Ok (href a, strip (text a))
  else Raise StaleElementReferenceException.

(** Line 72: [href and text and "chancery" in href.lower()] *)
Definition primary_test (h : option string) (t : string) : option string :=
  match h with
  | Some u => if truthy u && truthy t && contains "chancery" (lower u)
              then Some u else None
  | None => None
  end.

(** Line 92: [href and ".pdf" in href.lower() and text] *)
Definition fallback_test (h : option string) (t : string) : option string :=
  match h with
  | Some u => if truthy u && contains ".pdf" (lower u) && truthy t
              then Some u else None
  | None => None
  end.

(** Lines 68-80 and 88-100: one turn of a loop.  The bare [except] swallows
    whatever the turn raises. *)
Definition visit (test : option string -> string -> option string)
    (a : anchor) : Scraping unit :=
  try_except
    (ht <- lift_result (read_link a) ;;
     match test (fst ht) (snd ht) with
     | Some u =>
         d <- in_world now_iso ;;
         append_opinion (mkOpinion (snd ht) u d)
     | None => ret tt
     end)
    (fun _ => ret tt).

Fixpoint for_each {S A} (f : A -> ST S unit) (l : list A) : ST S unit :=
  match l with
  | [] => ret tt
  | a :: rest => f a ;;; for_each f rest
  end.

(** Lines 57-100, the body of the [try]. *)
Definition scrape_body : Scraping unit :=
  driver_get ;;;
  pdf_links <- find_pdf_links ;;
  for_each (visit primary_test) pdf_links ;;;
  s <- get_state ;;
  if (length (fst s) =? 0)%nat then
    all_links <- find_all_links ;;
    for_each (visit fallback_test) all_links
  else ret tt.

(** Line 105 *)
Definition driver_quit : Scraping unit :=
  if quit_ok (page e) then ret tt else raise WebDriverException.

(** Lines 51-107.  The driver is created before the [try]; the handler of
    line 102 turns an exception of the body into a normal exit; [quit] runs
    in the [finally]; then [opinions] is returned. *)
Definition scrape_chancery_opinions : M (list Opinion) :=
  setup_driver ;;;
  fun w =>
    match try_finally (try_except scrape_body (fun _ => ret tt)) driver_quit ([], w) with
    | (Ok _, s) => (Ok (fst s), snd s)
    | (Raise x, s) => (Raise x, snd s)
    end.

(** *** The fetcher (lines 109-125) *)

Definition DOWNLOADS : string := "downloads".

(** [Path("downloads") / filename]: an empty or [.] component adds nothing. *)
Definition downloads_path (filename : string) : string :=
  if String.eqb filename "" || String.eqb filename "." then DOWNLOADS
  else DOWNLOADS +:+ "/" +:+ filename.

(** Paths that name a directory. *)
Definition is_directory (path : string) (w : world) : bool :=
  (String.eqb path DOWNLOADS && downloads_dir w)
  || String.eqb path (DOWNLOADS +:+ "/..").

(** Lines 112-113: [requests.get] and [raise_for_status]. *)
Definition requests_get (u : string) : M string :=
  fun w =>
    match http e u with
    | Some content => (Ok content, emit (EvGet u) w)
    | None => (Raise RequestException, emit (EvGet u) w)
    end.

(** Line 116: [filepath.parent.mkdir(exist_ok=True)].  The parent is the
    current directory when the path is [downloads] itself.  A directory
    that is there is left alone; one that is not is created if the
    operating system allows it. *)
Definition mkdir_parent (filename : string) : M unit :=
  if String.eqb filename "" || String.eqb filename "." then ret tt
  else fun w =>
         match files w !! DOWNLOADS with
         | Some _ => (Raise FileExistsError, w)
         | None =>
             if downloads_dir w || fs_accepts e DOWNLOADS
             then (Ok tt, set_downloads_dir true w)
             else (Raise OSError, w)
         end.

(** Lines 118-119: [open(filepath, "wb")] and [write].  The [open] fails
    on a directory and on a path the operating system refuses. *)
Definition write_binary (path content : string) : M unit :=
  fun w =>
    if is_directory path w then (Raise IsADirectoryError, w)
    else if fs_accepts e path then (Ok tt, set_files (insert path content) w)
    else (Raise OSError, w).

Definition download_pdf (u filename : string) : M (option string) :=
  try_except
    (content <- requests_get u ;;
     mkdir_parent filename ;;;
     write_binary (downloads_path filename) content ;;;
     ret (Some (downloads_path filename)))
    (fun _ => ret None).

(** *** The notifier (lines 127-159) *)

Definition nl : string := String "010" EmptyString.

(** Line 137 *)
Definition body_line (op : Opinion) : string :=
  "- " +:+ title op +:+ nl +:+ "  " +:+ url op +:+ nl +:+ nl.

(** Lines 135-137 *)
Definition email_body (new_opinions : list Opinion) : string :=
  "Found " +:+ pretty (length new_opinions) +:+ " new opinion(s):" +:+ nl +:+ nl
  +:+ String.concat "" (map body_line new_opinions).

(** Lines 142-147, one path: a file that exists is read and attached under
    its last component. *)
Definition attach (path : string) : M (list (string * string)) :=
  fun w =>
    match files w !! path with
    | Some content => (Ok [(last_segment path, content)], w)
    | None =>
        if is_directory path w then (Raise IsADirectoryError, w) else (Ok [], w)
    end.

Fixpoint attach_all (pdf_paths : list string) : M (list (string * string)) :=
  match pdf_paths with
  | [] => ret []
  | p :: rest =>
      a <- attach p ;;
      r <- attach_all rest ;;
      ret (a ++ r)%list
  end.

(** Lines 149-152: the session.  Whatever step fails, the exception
    leaves the [with] block. *)
Definition smtp_send (m : email) : M unit :=
  fun w =>
    if smtp e m then (Ok tt, emit (EvSend m) w)
    else (Raise (match mail e m with
                 | NoSession => OSError
                 | _ => SMTPException
                 end), emit (EvSend m) w).

Definition send_email (new_opinions : list Opinion) (pdf_paths : list string) : M bool :=
  try_except
    (today <- now_ymd ;;
     atts <- attach_all pdf_paths ;;
     smtp_send (mkEmail (EMAIL_FROM e) (EMAIL_TO e)
                  ("New Delaware Court of Chancery Opinions - " +:+ today)
                  (email_body new_opinions) atts) ;;;
     ret true)
    (fun _ => ret false).

(** *** The orchestrator (lines 161-191) *)

(** Lines 177-182 *)
Fixpoint download_all (new_opinions : list Opinion) (pdf_paths : list string)
    : M (list string) :=
  match new_opinions with
  | [] => ret pdf_paths
  | op :: rest =>
      p <- download_pdf (url op) (last_segment (url op)) ;;
      match p with
      | Some path => download_all rest (pdf_paths ++ [path])%list
      | None => download_all rest pdf_paths
      end
  end.

(** How a run ends, after its last line of output. *)
Inductive verdict : Type :=
  | Processed    (* "Successfully processed new opinions" *)
  | SendFailed   (* "Failed to send email" *)
  | NoNew.       (* "No new opinions found" *)

(** Lines 163-172: what was seen, and what is new. *)
Definition detect : M (pyval * list Opinion) :=
  now_iso ;;;
  seen_opinions <- load_seen_opinions ;;
  seen_urls <- lift_result (seen_urls_of seen_opinions) ;;
  current_opinions <- scrape_chancery_opinions ;;
  ret (seen_opinions, new_opinions_of current_opinions seen_urls).

(** Lines 174-191 *)
Definition deliver (seen_opinions : pyval) (new_opinions : list Opinion) : M verdict :=
  match new_opinions with
  | _ :: _ =>
      pdf_paths <- download_all new_opinions [] ;;
      sent <- send_email new_opinions pdf_paths ;;
      if sent : bool then
        extended <- lift_result (py_extend seen_opinions new_opinions) ;;
        save_seen_opinions extended ;;;
        ret Processed
      else ret SendFailed
  | [] => ret NoNew
  end.

Definition main : M verdict :=
  sn <- detect ;;
  deliver (fst sn) (snd sn).

End Monitor.

(** ** A codec that inhabits the interface

    A small self-delimiting text format for [pyval]: enough to run the
    monitor on concrete worlds, and to show that the round-trip law of
    [JsonCodec] can be met. *)

Definition dquote : ascii := "034".
Definition backslash : ascii := "092".

Fixpoint enc_pos (p : positive) : list ascii :=
  match p with
  | xH => ["."%char]
  | xO q => "0"%char :: enc_pos q
  | xI q => "1"%char :: enc_pos q
  end.

Definition enc_Z (z : Z) : list ascii :=
  match z with
  | Z0 => ["0"%char]
  | Zpos p => "+"%char :: enc_pos p
  | Zneg p => "-"%char :: enc_pos p
  end.

(** The characters of a string up to a closing quote; a quote or a
    backslash inside is preceded by a backslash. *)
Fixpoint enc_str (s : string) : list ascii :=
  match s with
  | EmptyString => [dquote]
  | String c r =>
      if Ascii.eqb c dquote || Ascii.eqb c backslash
      then backslash :: c :: enc_str r
      else c :: enc_str r
  end.

Fixpoint enc (v : pyval) : list ascii :=
  match v with
  | PNone => ["n"%char]
  | PBool true => ["t"%char]
  | PBool false => ["f"%char]
  | PInt z => "i"%char :: enc_Z z
  | PFloat z => "d"%char :: enc_Z z
  | PStr s => dquote :: enc_str s
  | PList l =>
      "["%char ::
      (fix items (l : list pyval) : list ascii :=
         match l with
         | [] => ["]"%char]
         | x :: r => ","%char :: (enc x ++ items r)%list
         end) l
  | PDict d =>
      "{"%char ::
      (fix entries (d : list (string * pyval)) : list ascii :=
         match d with
         | [] => ["}"%char]
         | kx :: r => ","%char :: (enc_str (fst kx) ++ enc (snd kx) ++ entries r)%list
         end) d
  end.

Fixpoint dec_pos (s : list ascii) : option (positive * list ascii) :=
  match s with
  | [] => None
  | c :: r =>
      if Ascii.eqb c "." then Some (xH, r)
      else if Ascii.eqb c "0" then
        match dec_pos r with Some (p, r') => Some (xO p, r') | None => None end
      else if Ascii.eqb c "1" then
        match dec_pos r with Some (p, r') => Some (xI p, r') | None => None end
      else None
  end.

Definition dec_Z (s : list ascii) : option (Z * list ascii) :=
  match s with
  | [] => None
  | c :: r =>
      if Ascii.eqb c "0" then Some (Z0, r)
      else if Ascii.eqb c "+" then
        match dec_pos r with Some (p, r') => Some (Zpos p, r') | None => None end
      else if Ascii.eqb c "-" then
        match dec_pos r with Some (p, r') => Some (Zneg p, r') | None => None end
      else None
  end.

Fixpoint dec_str (s : list ascii) : option (string * list ascii) :=
  match s with
  | [] => None
  | c :: r =>
      if Ascii.eqb c dquote then Some (EmptyString, r)
      else if Ascii.eqb c backslash then
        match r with
        | [] => None
        | c' :: r' =>
            match dec_str r' with
            | Some (t, rest) => Some (String c' t, rest)
            | None => None
            end
        end
      else
        match dec_str r with
        | Some (t, rest) => Some (String c t, rest)
        | None => None
        end
  end.

Fixpoint dec (fuel : nat) (s : list ascii) : option (pyval * list ascii) :=
  match fuel, s with
  | S n, c :: r =>
      if Ascii.eqb c "n" then Some (PNone, r)
      else if Ascii.eqb c "t" then Some (PBool true, r)
      else if Ascii.eqb c "f" then Some (PBool false, r)
      else if Ascii.eqb c "i" then
        match dec_Z r with Some (z, r') => Some (PInt z, r') | None => None end
      else if Ascii.eqb c "d" then
        match dec_Z r with Some (z, r') => Some (PFloat z, r') | None => None end
      else if Ascii.eqb c dquote then
        match dec_str r with Some (t, r') => Some (PStr t, r') | None => None end
      else if Ascii.eqb c "[" then
        match dec_items n r with Some (l, r') => Some (PList l, r') | None => None end
      else if Ascii.eqb c "{" then
        match dec_entries n r with Some (d, r') => Some (PDict d, r') | None => None end
      else None
  | _, _ => None
  end
with dec_items (fuel : nat) (s : list ascii) : option (list pyval * list ascii) :=
  match fuel, s with
  | S n, c :: r =>
      if Ascii.eqb c "]" then Some ([], r)
      else if Ascii.eqb c "," then
        match dec n r with
        | Some (x, r') =>
            match dec_items n r' with
            | Some (l, r'') => Some (x :: l, r'')
            | None => None
            end
        | None => None
        end
      else None
  | _, _ => None
  end
with dec_entries (fuel : nat) (s : list ascii)
    : option (list (string * pyval) * list ascii) :=
  match fuel, s with
  | S n, c :: r =>
      if Ascii.eqb c "}" then Some ([], r)
      else if Ascii.eqb c "," then
        match dec_str r with
        | Some (k, r1) =>
            match dec n r1 with
            | Some (x, r2) =>
                match dec_entries n r2 with
                | Some (d, r3) => Some ((k, x) :: d, r3)
                | None => None
                end
            | None => None
            end
        | None => None
        end
      else None
  | _, _ => None
  end.

Definition compact_dumps (v : pyval) : string := string_of_list_ascii (enc v).

(** [json.load] refuses an integer of more than 4300 digits with a
    [ValueError]; so does this reader, for a document that is one such
    integer. *)
Definition is_digit (c : ascii) : bool :=
  (48 <=? nat_of_ascii c)%nat && (nat_of_ascii c <=? 57)%nat.

Fixpoint all_digits (s : string) : bool :=
  match s with
  | EmptyString => true
  | String c r => is_digit c && all_digits r
  end.

Definition MAX_STR_DIGITS : nat := 4300.

Definition compact_loads (s : string) : result pyval :=
  if all_digits s && (MAX_STR_DIGITS <? String.length s)%nat then Raise ValueError
  else match dec (S (String.length s)) (list_ascii_of_string s) with
       | Some (v, []) => Ok v
       | _ => Raise JSONDecodeError
       end.

Definition enc_items (l : list pyval) : list ascii :=
  fold_right (fun x acc => ","%char :: (enc x ++ acc)%list) ["]"%char] l.

Definition enc_entries (d : list (string * pyval)) : list ascii :=
  fold_right (fun kx acc => ","%char :: (enc_str (fst kx) ++ enc (snd kx) ++ acc)%list)
             ["}"%char] d.

(** ** Observations

    Functions the properties below are stated with: views of a world, the
    renderer's result as a function of the page, and the specification's
    own wording of the two link filters. *)

(** The part of a world a run can persist into: the content of the
    seen-opinions file, if the file exists. *)
Definition store (w : world) : option string := files w !! SEEN_OPINIONS_FILE.

(** [k] more readings of the clock. *)
Definition add_ticks (k : nat) (w : world) : world :=
  mkWorld (files w) (downloads_dir w) (ticks w + k) (trace w).

(** What one loop keeps of a list of anchors: (text, target) of every
    anchor that can be read and passes the test, in order. *)
Definition kept_links (test : option string -> string -> option string)
    (links : list anchor) : list (string * string) :=
  flat_map (fun a =>
              match read_link a with
              | Ok ht => match test (fst ht) (snd ht) with
                         | Some u => [(snd ht, u)]
                         | None => []
                         end
              | Raise _ => []
              end) links.

(** The candidates a page yields: the primary pass over the anchors the
    XPath search returns, or, when that pass keeps nothing, the fallback
    pass over all anchors.  A failed page load or element search leaves no
    candidate. *)
Definition primary_pass (b : browser) : list (string * string) :=
  kept_links primary_test (List.filter has_pdf (dom b)).

Definition fallback_pass (b : browser) : list (string * string) :=
  kept_links fallback_test (dom b).

Definition candidates (b : browser) : list (string * string) :=
  if get_ok b && find_pdf_ok b then
    match primary_pass b with
    | [] => if find_all_ok b then fallback_pass b else []
    | kept => kept
    end
  else [].

(** The two filters as the specification words them, on anchors whose
    attributes can be read.  The target is the anchor's [href]; the visible
    text is its text without surrounding white space. *)
Definition primary_keeps (a : anchor) : bool :=
  readable a &&
  match href a with
  | Some h => contains ".pdf" h && contains "chancery" (lower h) && truthy (strip (text a))
  | None => false
  end.

Definition fallback_keeps (a : anchor) : bool :=
  readable a &&
  match href a with
  | Some h => contains ".pdf" (lower h) && truthy (strip (text a))
  | None => false
  end.

(** The (title, url) a kept anchor gives. *)
Definition link_of (a : anchor) : string * string :=
  (strip (text a), match href a with Some h => h | None => EmptyString end).

(** A browser none of whose session calls fails. *)
Definition browser_works (b : browser) : bool :=
  setup_ok b && get_ok b && find_pdf_ok b && find_all_ok b && quit_ok b.

Definition set_page (b : browser) (e : env) : env :=
  mkEnv (clock_iso e) (clock_ymd e) b (http e) (mail e) (fs_accepts e)
        (EMAIL_FROM e) (EMAIL_TO e).

(** The page with its unreadable anchors removed. *)
Definition drop_unreadable (b : browser) : browser :=
  mkBrowser (setup_ok b) (get_ok b) (find_pdf_ok b) (find_all_ok b) (quit_ok b)
            (List.filter readable (dom b)).

(** A page none of whose kept links repeats a target. *)
Definition distinct_targets (b : browser) : Prop := NoDup (map snd (candidates b)).

(** A loaded value that carries the fields of record [r], whatever the
    order of its keys. *)
Definition same_record (v : pyval) (r : Opinion) : Prop :=
  match v with
  | PDict items =>
      Permutation (map fst items) ["title"; "url"; "date_found"] /\
      dict_get "title" items = Some (PStr (title r)) /\
      dict_get "url" items = Some (PStr (url r)) /\
      dict_get "date_found" items = Some (PStr (date_found r))
  | _ => False
  end.

(** The local path a record's document is written to. *)
Definition path_of (op : Opinion) : string :=
  downloads_path (last_segment (url op)).

(** File names that name a file inside [downloads]: not empty, not a dot
    name. *)
Definition proper_name (filename : string) : bool :=
  negb (String.eqb filename "" || String.eqb filename "." || String.eqb filename "..").

(** A stored value the set of line 166 can be built from: a dict with a
    ["url"] whose value can be a member of a set. *)
Definition has_url (v : pyval) : bool :=
  match v with
  | PDict items =>
      match dict_get "url" items with
      | Some u => hashable u
      | None => false
      end
  | _ => false
  end.

(** The attachments of every message of a trace. *)
Definition sent_attachments (tr : list event) : list (list (string * string)) :=
  flat_map (fun ev => match ev with
                      | EvSend m => [e_attachments m]
                      | EvGet _ => []
                      end) tr.

Section Observations.

Context {codec : JsonCodec}.
Variable e : env.

(** Records for kept links, stamped with consecutive clock readings from
    the [n]-th on. *)
Fixpoint stamp (n : nat) (links : list (string * string)) : list Opinion :=
  match links with
  | [] => []
  | tu :: rest => mkOpinion (fst tu) (snd tu) (clock_iso e n) :: stamp (S n) rest
  end.

(** The records whose document the server delivers. *)
Definition fetched (op : Opinion) : bool :=
  match http e (url op) with Some _ => true | None => false end.

(** A record's document as the server has it: file name and body. *)
Definition document_of (op : Opinion) : string * string :=
  (last_segment (url op), default EmptyString (http e (url op))).

(** The value the store holds for a loader: what [load_seen_opinions]
    returns, which depends on the seen-opinions file only. *)
Definition persisted (w : world) : result pyval := fst (load_seen_opinions w).

(** The new opinions a run from [w] computes, when it gets that far. *)
Definition diffed (w : world) : option (list Opinion) :=
  match detect e w with
  | (Ok sn, _) => Some (snd sn)
  | (Raise _, _) => None
  end.

(** What the notifier reports in a run from [w]: [None] when the run never
    calls it. *)
Definition notifier_report (w : world) : option bool :=
  match detect e w with
  | (Ok sn, w1) =>
      match snd sn with
      | [] => None
      | _ :: _ =>
          match download_all e (snd sn) [] w1 with
          | (Ok pdf_paths, w2) =>
              match send_email e (snd sn) pdf_paths w2 with
              | (Ok sent, _) => Some sent
              | (Raise _, _) => None
              end
          | (Raise _, _) => None
          end
      end
  | (Raise _, _) => None
  end.

End Observations.

(** The worlds reached from a disk without a seen-opinions file by runs
    against pages whose kept links have distinct targets; everything else
    about a run (clock, server, transport, failures) is arbitrary. *)
Inductive reachable_distinct {codec : JsonCodec} : world -> Prop :=
  | reach_fresh (w : world) : store w = None -> reachable_distinct w
  | reach_run (e : env) (w : world) :
      reachable_distinct w -> distinct_targets (page e) ->
      reachable_distinct (snd (main e w)).

(** ** Scenarios

    Concrete pages, servers and disks on which the monitor is run, with
    the codec above. *)

Definition COURT : string := "https://courts.delaware.gov/opinions/".

(** A page with the given anchors, shown by a browser that works. *)
Definition page_of (anchors : list anchor) : browser :=
  mkBrowser true true true true true anchors.

(** The longest file name the file system of the scenarios takes. *)
Definition NAME_MAX : nat := 255.

(** The clock renders its [n]-th reading with [n] as the seconds.  The
    transport either takes a message, and the session runs through, or
    refuses it.  The file system refuses names longer than [NAME_MAX]. *)
Definition scenario (b : browser) (server : string -> option string)
    (transport : email -> bool) : env :=
  mkEnv (fun n => "2024-05-01T09:00:" +:+ pretty n) (fun _ => "2024-05-01")
        b server (fun m => if transport m then Delivered else Refused)
        (fun path => (String.length (last_segment path) <=? NAME_MAX)%nat)
        "monitor@example.org" "clerk@example.org".

Definition empty_disk : world := mkWorld ∅ false 0 [].

Definition disk_with (seen : pyval) : world :=
  mkWorld {[ SEEN_OPINIONS_FILE := compact_dumps seen ]} false 0 [].

(** A disk whose seen-opinions file holds the given bytes. *)
Definition disk_holding (content : string) : world :=
  mkWorld {[ SEEN_OPINIONS_FILE := content ]} false 0 [].

Fixpoint ones (n : nat) : string :=
  match n with
  | O => EmptyString
  | S k => String "1" (ones k)
  end.

(** A well-formed JSON document: one integer, written with 4301 digits. *)
Definition long_integer : string := ones 4301.

Definition in_re_a : anchor :=
  mkAnchor (Some (COURT +:+ "chancery/a.pdf")) "In re A" true.
Definition in_re_b : anchor :=
  mkAnchor (Some (COURT +:+ "chancery/b.pdf")) " In re B " true.
Definition stale_link : anchor :=
  mkAnchor (Some (COURT +:+ "chancery/c.pdf")) "In re C" false.
Definition press_release : anchor :=
  mkAnchor (Some (COURT +:+ "news/release.PDF")) "Press release" true.
Definition home_link : anchor := mkAnchor (Some COURT) "Home" true.

Definition seen_a : Opinion :=
  mkOpinion "In re A" (COURT +:+ "chancery/a.pdf") "2024-04-30T09:00:1".

(** A server that has every document but [b.pdf]. *)
Definition server_without_b (u : string) : option string :=
  if String.eqb u (COURT +:+ "chancery/b.pdf") then None else Some ("%PDF " +:+ u).

(** [seen_a] was delivered before; the page lists it again together with a
    new opinion whose PDF the server does not have. *)
Definition second_day : env :=
  scenario (page_of [in_re_a; in_re_b]) server_without_b (fun _ => true).

Definition found_b : Opinion :=
  mkOpinion "In re B" (COURT +:+ "chancery/b.pdf") "2024-05-01T09:00:2".

(** Two opinions of different years are published under the same file
    name.  Both downloads succeed, the second overwrites the first, and
    the message carries the second document twice. *)
Definition same_file_name : env :=
  scenario
    (page_of [mkAnchor (Some (COURT +:+ "chancery/2023/order.pdf")) "Order of 2023" true;
              mkAnchor (Some (COURT +:+ "chancery/2024/order.pdf")) "Order of 2024" true])
    (fun u => Some ("%PDF " +:+ u)) (fun _ => true).

(** The page links the same document twice.  Starting from no store at
    all, one run persists two records with the same url. *)
Definition linked_twice : env :=
  scenario
    (page_of [in_re_a;
              mkAnchor (Some (COURT +:+ "chancery/a.pdf")) "In re A (PDF)" true])
    (fun u => Some ("%PDF " +:+ u)) (fun _ => true).

(** The first day: nothing was seen, the page lists two opinions, and
    the server has both documents. *)
Definition first_day : env :=
  scenario (page_of [in_re_a; in_re_b]) (fun u => Some ("%PDF " +:+ u)) (fun _ => true).

Definition found_a_first : Opinion :=
  mkOpinion "In re A" (COURT +:+ "chancery/a.pdf") "2024-05-01T09:00:1".
Definition found_b_first : Opinion :=
  mkOpinion "In re B" (COURT +:+ "chancery/b.pdf") "2024-05-01T09:00:2".

(** The transport refuses every message. *)
Definition transport_down : env :=
  scenario (page_of [in_re_a; in_re_b]) server_without_b (fun _ => false).

(** The browser renders the page but cannot be shut down. *)
Definition browser_hangs : env :=
  scenario (mkBrowser true true true true false [in_re_a]) server_without_b (fun _ => true).

(** A stored record that lost its ["url"]. *)
Definition record_without_url : pyval := PDict [("title", PStr "In re A")].

(** The server takes every message and then does not answer [QUIT] as it
    should. *)
Definition quit_unanswered : env :=
  mkEnv (clock_iso second_day) (clock_ymd second_day) (page second_day)
        (http second_day) (fun _ => QuitFailed) (fs_accepts second_day)
        (EMAIL_FROM second_day) (EMAIL_TO second_day).

(** A url whose last segment has 260 bytes. *)
Definition long_named : string := COURT +:+ "chancery/" +:+ ones 256 +:+ ".pdf".

(** * Properties *)

(** ** The codec meets its law *)

Lemma enc_list_unfold l : enc (PList l) = "["%char :: enc_items l.
Proof. reflexivity. Qed.

Lemma enc_dict_unfold d : enc (PDict d) = "{"%char :: enc_entries d.
Proof. reflexivity. Qed.

(** Induction on values, with the hypothesis for every element of a list
    and every value of a dict. *)
Definition pyval_nested_ind (P : pyval -> Prop)
    (HNone : P PNone) (HBool : forall b, P (PBool b))
    (HInt : forall z, P (PInt z)) (HFloat : forall z, P (PFloat z))
    (HStr : forall s, P (PStr s))
    (HList : forall l, Forall P l -> P (PList l))
    (HDict : forall d, Forall (fun kx => P (snd kx)) d -> P (PDict d))
    : forall v, P v :=
  fix go (v : pyval) : P v :=
    match v with
    | PNone => HNone
    | PBool b => HBool b
    | PInt z => HInt z
    | PFloat z => HFloat z
    | PStr s => HStr s
    | PList l =>
        HList l
          ((fix all (l : list pyval) : Forall P l :=
              match l with
              | [] => @List.Forall_nil _ P
              | x :: r => @List.Forall_cons _ P x r (go x) (all r)
              end) l)
    | PDict d =>
        HDict d
          ((fix all (d : list (string * pyval)) : Forall (fun kx => P (snd kx)) d :=
              match d with
              | [] => @List.Forall_nil _ _
              | kx :: r => @List.Forall_cons _ _ kx r (go (snd kx)) (all r)
              end) d)
    end.

Lemma dec_pos_enc p rest : dec_pos (enc_pos p ++ rest) = Some (p, rest).
Proof.
  induction p as [q IH|q IH|]; simpl; [now rewrite IH|now rewrite IH|reflexivity].
Qed.

Lemma dec_Z_enc z rest : dec_Z (enc_Z z ++ rest) = Some (z, rest).
Proof.
  destruct z as [|p|p]; simpl; [reflexivity| |]; now rewrite dec_pos_enc.
Qed.

Lemma dec_str_enc s rest : dec_str (enc_str s ++ rest) = Some (s, rest).
Proof.
  induction s as [|c r IH]; simpl; [reflexivity|].
  destruct (Ascii.eqb c dquote) eqn:Hq; simpl.
  - rewrite IH. reflexivity.
  - destruct (Ascii.eqb c backslash) eqn:Hb; simpl.
    + rewrite IH. reflexivity.
    + rewrite Hq, Hb, IH. reflexivity.
Qed.

Lemma enc_nonempty v : (1 <= length (enc v))%nat.
Proof. destruct v as [| [|] | | | | |]; simpl; lia. Qed.

Lemma dec_enc v :
  forall n rest, (length (enc v) <= n)%nat -> dec n (enc v ++ rest) = Some (v, rest).
Proof.
  induction v as [|b|z|z|s|l IH|d IH] using pyval_nested_ind; intros n rest Hn.
  - destruct n; simpl in *; [lia|reflexivity].
  - destruct n, b; simpl in *; try lia; reflexivity.
  - destruct n; simpl in *; [lia|]. now rewrite dec_Z_enc.
  - destruct n; simpl in *; [lia|]. now rewrite dec_Z_enc.
  - destruct n; simpl in *; [lia|]. now rewrite dec_str_enc.
  - rewrite enc_list_unfold in *. destruct n as [|n]; simpl in Hn; [lia|].
    apply le_S_n in Hn.
    assert (Hitems : dec_items n (enc_items l ++ rest) = Some (l, rest)).
    { clear -IH Hn. revert n Hn.
      induction IH as [|x r Hx _ IHr]; intros n Hn.
      - destruct n; simpl in *; [lia|reflexivity].
      - destruct n as [|n]; simpl in Hn; [lia|].
        rewrite length_app in Hn.
        change (enc_items (x :: r)) with (","%char :: (enc x ++ enc_items r)%list).
        cbn [app]. rewrite <- app_assoc.
        cbn [dec_items]. cbn [Ascii.eqb Bool.eqb]. 
        rewrite Hx by lia. rewrite IHr by lia. reflexivity. }
    cbn [app dec]. cbn [Ascii.eqb Bool.eqb]. now rewrite Hitems.
  - rewrite enc_dict_unfold in *. destruct n as [|n]; simpl in Hn; [lia|].
    apply le_S_n in Hn.
    assert (Hent : dec_entries n (enc_entries d ++ rest) = Some (d, rest)).
    { clear -IH Hn. revert n Hn.
      induction IH as [|[k x] r Hx _ IHr]; intros n Hn.
      - destruct n; simpl in *; [lia|reflexivity].
      - destruct n as [|n]; simpl in Hn; [lia|].
        rewrite !length_app in Hn.
        change (enc_entries ((k, x) :: r))
          with (","%char :: (enc_str k ++ enc x ++ enc_entries r)%list).
        cbn [app]. rewrite <- !app_assoc.
        cbn [dec_entries]. cbn [Ascii.eqb Bool.eqb].
        rewrite dec_str_enc. simpl in Hx. rewrite Hx by lia.
        rewrite IHr by lia. reflexivity. }
    cbn [app dec]. cbn [Ascii.eqb Bool.eqb]. now rewrite Hent.
Qed.

Lemma enc_no_digits v : all_digits (string_of_list_ascii (enc v)) = false.
Proof. destruct v as [| [|] | | | | |]; reflexivity. Qed.

Lemma compact_roundtrip v : compact_loads (compact_dumps v) = Ok v.
Proof.
  unfold compact_loads, compact_dumps. rewrite enc_no_digits. cbn [andb].
  rewrite list_ascii_of_string_of_list_ascii.
  rewrite <- (app_nil_r (enc v)) at 2.
  rewrite dec_enc; [reflexivity|].
  clear. generalize (enc v). intros l.
  induction l as [|c l IH]; simpl; lia.
Qed.

#[export] Instance compact_codec : JsonCodec :=
  mkJsonCodec compact_dumps compact_loads compact_roundtrip.

(** ** Reading the monad *)

Ltac st_unfold :=
  unfold bind, ret, raise, modify, get_state, lift_result, try_except,
    try_finally in *.

Lemma add_ticks_0 w : add_ticks 0 w = w.
Proof. destruct w. unfold add_ticks. simpl. f_equal. lia. Qed.

Lemma add_ticks_tick k w : add_ticks k (tick w) = add_ticks (S k) w.
Proof. unfold add_ticks, tick. simpl. f_equal. lia. Qed.

(** ** The page renderer, as a function of the page *)

Section Renderer.

Variable e : env.

Lemma stamp_length n links : length (stamp e n links) = length links.
Proof. revert n. induction links as [|tu r IH]; intros n; simpl; [|rewrite IH]; reflexivity. Qed.

Lemma stamp_app n l1 l2 :
  stamp e n (l1 ++ l2) = (stamp e n l1 ++ stamp e (n + length l1) l2)%list.
Proof.
  revert n. induction l1 as [|tu r IH]; intros n; simpl.
  - now rewrite Nat.add_0_r.
  - rewrite IH. do 3 f_equal. lia.
Qed.

Lemma stamp_links n links :
  map (fun op => (title op, url op)) (stamp e n links) = links.
Proof.
  revert n. induction links as [|[t u] r IH]; intros n; simpl; [reflexivity|].
  now rewrite IH.
Qed.

Lemma stamp_dates n links :
  map date_found (stamp e n links) = map (clock_iso e) (seq n (length links)).
Proof.
  revert n. induction links as [|tu r IH]; intros n; simpl; [reflexivity|].
  now rewrite IH.
Qed.

Lemma kept_links_cons test a r :
  kept_links test (a :: r) = (kept_links test [a] ++ kept_links test r)%list.
Proof. unfold kept_links. simpl. now rewrite app_nil_r. Qed.

Lemma visit_run test a ops w :
  visit e test a (ops, w) =
  match kept_links test [a] with
  | tu :: _ => (Ok tt, ((ops ++ stamp e (ticks w) [tu])%list, tick w))
  | [] => (Ok tt, (ops, w))
  end.
Proof.
  unfold visit, kept_links, in_world, append_opinion, now_iso. st_unfold. simpl.
  destruct (read_link a) as [[h t]|x]; simpl; [|reflexivity].
  destruct (test h t) as [u|]; reflexivity.
Qed.

Lemma for_each_visit_run test links : forall ops w,
  for_each (visit e test) links (ops, w) =
  (Ok tt, ((ops ++ stamp e (ticks w) (kept_links test links))%list,
           add_ticks (length (kept_links test links)) w)).
Proof.
  induction links as [|a r IH]; intros ops w.
  - simpl. rewrite app_nil_r, add_ticks_0. reflexivity.
  - cbn [for_each]. unfold bind at 1. rewrite visit_run.
    rewrite (kept_links_cons test a r).
    destruct (kept_links test [a]) as [|tu rest] eqn:Ha.
    + simpl. apply IH.
    + assert (rest = []) as ->.
      { unfold kept_links in Ha. simpl in Ha.
        destruct (read_link a) as [ht|]; [|discriminate].
        destruct (test (fst ht) (snd ht)); simpl in Ha; congruence. }
      rewrite IH. simpl. rewrite <- app_assoc. simpl.
      rewrite add_ticks_tick. do 3 f_equal.
Qed.

Lemma scrape_body_run w :
  exists r,
    try_except (scrape_body e) (fun _ => ret tt) ([], w) =
    (Ok r, (stamp e (ticks w) (candidates (page e)),
            add_ticks (length (candidates (page e))) w)).
Proof.
  exists tt. unfold scrape_body, candidates, driver_get, find_pdf_links, find_all_links.
  unfold try_except, bind at 1.
  destruct (get_ok (page e)); simpl; [|now rewrite add_ticks_0].
  unfold bind at 1.
  destruct (find_pdf_ok (page e)); simpl; [|now rewrite add_ticks_0].
  unfold ret at 1. unfold bind at 1. rewrite for_each_visit_run. simpl.
  fold (primary_pass (page e)).
  unfold bind at 1, get_state. simpl. rewrite stamp_length.
  destruct (primary_pass (page e)) as [|tu rest] eqn:Hp; simpl; [|reflexivity].
  rewrite add_ticks_0.
  unfold bind at 1.
  destruct (find_all_ok (page e)); simpl; [|now rewrite add_ticks_0].
  unfold ret at 1. rewrite for_each_visit_run. reflexivity.
Qed.

(** The whole of [scrape_chancery_opinions] in closed form. *)
Lemma scrape_run w :
  scrape_chancery_opinions e w =
  if setup_ok (page e) then
    (if quit_ok (page e) then Ok (stamp e (ticks w) (candidates (page e)))
     else Raise WebDriverException,
     add_ticks (length (candidates (page e))) w)
  else (Raise WebDriverException, w).
Proof.
  unfold scrape_chancery_opinions, setup_driver. unfold bind at 1.
  destruct (setup_ok (page e)); simpl; [|reflexivity].
  unfold try_finally. destruct (scrape_body_run w) as [r ->].
  unfold driver_quit. destruct (quit_ok (page e)); reflexivity.
Qed.

End Renderer.

(** ** What the fetcher and the notifier leave alone *)

Section Delivery.

Variable e : env.

Lemma downloads_path_not_store filename :
  downloads_path filename <> SEEN_OPINIONS_FILE.
Proof.
  unfold downloads_path, DOWNLOADS, SEEN_OPINIONS_FILE.
  destruct (String.eqb filename "" || String.eqb filename "."); simpl; discriminate.
Qed.

Lemma store_insert_other path content w :
  path <> SEEN_OPINIONS_FILE ->
  store (set_files (insert path content) w) = store w.
Proof. intros Hne. unfold store, set_files. simpl. now rewrite lookup_insert_ne. Qed.

(** A download always returns, asks the server exactly once, and never
    touches the seen-opinions file or the clock. *)
Lemma download_pdf_run u filename w :
  exists p w',
    download_pdf e u filename w = (Ok p, w') /\
    store w' = store w /\ ticks w' = ticks w /\
    trace w' = (trace w ++ [EvGet u])%list.
Proof.
  unfold download_pdf, requests_get, mkdir_parent, write_binary. st_unfold.
  destruct (http e u) as [content|]; [|eauto 10].
  destruct (String.eqb filename "" || String.eqb filename ".") eqn:Hf.
  - destruct (is_directory (downloads_path filename) (emit (EvGet u) w)); [eauto 10|].
    destruct (fs_accepts e (downloads_path filename)); [|eauto 10].
    do 2 eexists. split; [reflexivity|].
    rewrite store_insert_other by apply downloads_path_not_store. auto.
  - destruct (files (emit (EvGet u) w) !! DOWNLOADS); [eauto 10|].
    destruct (downloads_dir (emit (EvGet u) w) || fs_accepts e DOWNLOADS); [|eauto 10].
    destruct (is_directory _ _); [eauto 10|].
    destruct (fs_accepts e (downloads_path filename)); [|eauto 10].
    do 2 eexists. split; [reflexivity|].
    rewrite store_insert_other by apply downloads_path_not_store. auto.
Qed.

Lemma download_all_run new_opinions : forall pdf_paths w,
  exists paths w',
    download_all e new_opinions pdf_paths w = (Ok paths, w') /\
    store w' = store w /\ ticks w' = ticks w /\
    trace w' = (trace w ++ map (fun op => EvGet (url op)) new_opinions)%list.
Proof.
  induction new_opinions as [|op rest IH]; intros pdf_paths w.
  - exists pdf_paths, w. simpl. rewrite app_nil_r. auto.
  - cbn [download_all]. unfold bind at 1.
    destruct (download_pdf_run (url op) (last_segment (url op)) w)
      as (p & w1 & -> & Hs & Ht & Htr).
    destruct p as [path|].
    + destruct (IH (pdf_paths ++ [path])%list w1) as (paths & w' & -> & Hs' & Ht' & Htr').
      exists paths, w'. rewrite Hs', Ht', Htr', Hs, Ht, Htr, <- app_assoc. auto.
    + destruct (IH pdf_paths w1) as (paths & w' & -> & Hs' & Ht' & Htr').
      exists paths, w'. rewrite Hs', Ht', Htr', Hs, Ht, Htr, <- app_assoc. auto.
Qed.

Lemma attach_all_state pdf_paths : forall w, snd (attach_all pdf_paths w) = w.
Proof.
  induction pdf_paths as [|p rest IH]; intros w; [reflexivity|].
  cbn [attach_all]. unfold bind at 1, attach.
  destruct (files w !! p).
  - unfold bind at 1. specialize (IH w).
    destruct (attach_all rest w) as [[r|x] w']; simpl in *; now subst.
  - destruct (is_directory p w); [reflexivity|].
    unfold bind at 1. specialize (IH w).
    destruct (attach_all rest w) as [[r|x] w']; simpl in *; now subst.
Qed.

(** What [send_email] does: it reads the clock once; either an attachment
    cannot be read and no session is attempted, or exactly one mail
    session is attempted, and the result tells whether it ran through.
    No file changes. *)
Lemma send_email_run new_opinions pdf_paths w :
  (send_email e new_opinions pdf_paths w = (Ok false, tick w)) \/
  (exists m,
     send_email e new_opinions pdf_paths w = (Ok (smtp e m), emit (EvSend m) (tick w)) /\
     e_body m = email_body new_opinions /\
     fst (attach_all pdf_paths (tick w)) = Ok (e_attachments m)).
Proof.
  unfold send_email, now_ymd, smtp_send. st_unfold.
  pose proof (attach_all_state pdf_paths (tick w)) as Hst.
  destruct (attach_all pdf_paths (tick w)) as [[atts|x] w1]; simpl in Hst; subst w1.
  - right.
    exists (mkEmail (EMAIL_FROM e) (EMAIL_TO e)
              ("New Delaware Court of Chancery Opinions - " +:+ clock_ymd e (ticks w))
              (email_body new_opinions) atts).
    destruct (smtp e _) eqn:Hm; simpl; auto.
  - left. reflexivity.
Qed.

End Delivery.

(** ** The orchestrator, case by case *)

Section Orchestrator.

Context {codec : JsonCodec}.
Variable e : env.

Lemma load_run w :
  load_seen_opinions w =
  (match store w with
   | Some content => json_loads content
   | None => Ok (PList [])
   end, w).
Proof.
  unfold load_seen_opinions, store.
  now destruct (files w !! SEEN_OPINIONS_FILE).
Qed.

Lemma persisted_store w w' : store w' = store w -> persisted w' = persisted w.
Proof. intros H. unfold persisted. rewrite !load_run. simpl. now rewrite H. Qed.

Lemma store_add_ticks k w : store (add_ticks k w) = store w.
Proof. reflexivity. Qed.

(** [detect] reads the clock and the seen-opinions file and drives the
    browser; it writes no file and sends nothing. *)
Lemma detect_run w :
  detect e w =
  match persisted w with
  | Raise x => (Raise x, tick w)
  | Ok seen =>
      match seen_urls_of seen with
      | Raise x => (Raise x, tick w)
      | Ok seen_urls =>
          match scrape_chancery_opinions e (tick w) with
          | (Ok current, w1) => (Ok (seen, new_opinions_of current seen_urls), w1)
          | (Raise x, w1) => (Raise x, w1)
          end
      end
  end.
Proof.
  unfold detect, now_iso, persisted. st_unfold.
  rewrite !load_run. cbn [fst snd].
  assert (store (tick w) = store w) as -> by reflexivity.
  destruct (store w) as [c|]; [destruct (json_loads c) as [v|]|]; reflexivity.
Qed.

Lemma detect_frame w :
  files (snd (detect e w)) = files w /\
  downloads_dir (snd (detect e w)) = downloads_dir w /\
  trace (snd (detect e w)) = trace w.
Proof.
  rewrite detect_run.
  destruct (persisted w) as [seen|x]; [|auto].
  destruct (seen_urls_of seen); [|auto].
  rewrite scrape_run.
  destruct (setup_ok (page e)); [|auto].
  destruct (quit_ok (page e)); auto.
Qed.

Lemma detect_seen w seen new_opinions w1 :
  detect e w = (Ok (seen, new_opinions), w1) -> persisted w = Ok seen.
Proof.
  rewrite detect_run.
  destruct (persisted w) as [sn|x]; [|discriminate].
  destruct (seen_urls_of sn); [|discriminate].
  destruct (scrape_chancery_opinions e (tick w)) as [[cur|x] w']; congruence.
Qed.

(** Every way a run can go, after [detect]. *)
Lemma main_run w :
  match detect e w with
  | (Raise x, w1) => main e w = (Raise x, w1)
  | (Ok (seen, []), w1) => main e w = (Ok NoNew, w1)
  | (Ok (seen, new_opinions), w1) =>
      exists pdf_paths w2 sent w3,
        download_all e new_opinions [] w1 = (Ok pdf_paths, w2) /\
        send_email e new_opinions pdf_paths w2 = (Ok sent, w3) /\
        store w2 = store w1 /\ files w3 = files w2 /\
        main e w =
        if sent : bool then
          match py_extend seen new_opinions with
          | Ok extended =>
              (Ok Processed,
               set_files (insert SEEN_OPINIONS_FILE (json_dumps extended)) w3)
          | Raise x => (Raise x, w3)
          end
        else (Ok SendFailed, w3)
  end.
Proof.
  destruct (detect e w) as [[[seen new_opinions]|x] w1] eqn:Hdet;
    [|unfold main, bind; now rewrite Hdet].
  destruct new_opinions as [|op rest]; [unfold main, bind; now rewrite Hdet|].
  assert (Hmain : main e w = deliver e seen (op :: rest) w1)
    by (unfold main, bind; now rewrite Hdet).
  rewrite Hmain. clear Hmain Hdet. unfold deliver. unfold bind at 1.
  destruct (download_all_run e (op :: rest) [] w1) as (paths & w2 & Hd & Hs & _ & _).
  rewrite Hd. unfold bind at 1.
  exists paths, w2.
  destruct (send_email_run e (op :: rest) paths w2) as [Hm|(m & Hm & _ & _)]; rewrite Hm.
  - exists false, (tick w2). auto.
  - exists (smtp e m), (emit (EvSend m) (tick w2)).
    repeat split; auto.
    destruct (smtp e m); [|reflexivity].
    unfold bind, lift_result, save_seen_opinions, modify, ret.
    destruct (py_extend seen (op :: rest)); reflexivity.
Qed.

End Orchestrator.

(** ** The differ (line 172) *)

Lemma seen_urls_of_records (seen : list Opinion) :
  seen_urls_of (PList (map opinion_dict seen)) =
  Ok (map (fun r => PStr (url r)) seen).
Proof.
  unfold seen_urls_of. simpl.
  induction seen as [|r rest IH]; simpl; [reflexivity|].
  now rewrite IH.
Qed.

Lemma str_in_urls u (seen : list Opinion) :
  str_in u (map (fun r => PStr (url r)) seen) = existsb (String.eqb u) (map url seen).
Proof.
  unfold str_in. induction seen as [|r rest IH]; simpl; [reflexivity|].
  now rewrite IH.
Qed.

Lemma new_opinions_unseen (current seen : list Opinion) r :
  In r (new_opinions_of current (map (fun r => PStr (url r)) seen)) ->
  In r current /\ ~ In (url r) (map url seen).
Proof.
  unfold new_opinions_of. rewrite List.filter_In, Bool.negb_true_iff, str_in_urls.
  intros [Hin Hnot]. split; [exact Hin|]. intros Hseen.
  apply Bool.not_true_iff_false in Hnot. apply Hnot.
  apply List.existsb_exists. exists (url r). split; [exact Hseen|apply String.eqb_refl].
Qed.

Lemma filter_sublist {A} (f : A -> bool) (l : list A) : sublist (List.filter f l) l.
Proof.
  induction l as [|a r IH]; simpl; [constructor|].
  destruct (f a); now constructor.
Qed.

(** C1.  For every candidate sequence and every seen list, the diff step
    returns exactly the candidates whose url is not among the urls of the
    seen records, in the candidates' order.  The step is a function of its
    two arguments: it has no state to touch and returns a new list. *)
Theorem diff_returns_unseen_in_order (current seen : list Opinion) :
  seen_urls_of (PList (map opinion_dict seen)) = Ok (map (fun r => PStr (url r)) seen) /\
  new_opinions_of current (map (fun r => PStr (url r)) seen) =
    List.filter (fun r => negb (existsb (String.eqb (url r)) (map url seen))) current /\
  (forall r, In r (new_opinions_of current (map (fun r => PStr (url r)) seen)) <->
             In r current /\ ~ In (url r) (map url seen)) /\
  sublist (new_opinions_of current (map (fun r => PStr (url r)) seen)) current.
Proof.
  split; [apply seen_urls_of_records|].
  assert (Hfilter : new_opinions_of current (map (fun r => PStr (url r)) seen) =
    List.filter (fun r => negb (existsb (String.eqb (url r)) (map url seen))) current).
  { unfold new_opinions_of. apply List.filter_ext. intros r. now rewrite str_in_urls. }
  split; [exact Hfilter|]. split.
  - intros r. rewrite Hfilter, List.filter_In, Bool.negb_true_iff.
    split; intros [Hin Hnot]; split; trivial.
    + intros Hseen. apply Bool.not_true_iff_false in Hnot. apply Hnot.
      apply List.existsb_exists. exists (url r). split; [exact Hseen|apply String.eqb_refl].
    + apply Bool.not_true_iff_false. intros Hex.
      apply List.existsb_exists in Hex as (u & Hu & Heq).
      apply String.eqb_eq in Heq. now subst u.
  - apply filter_sublist.
Qed.

(** ** The seen-opinions store (lines 26-36) *)

Lemma opinion_dict_same_record r : same_record (opinion_dict r) r.
Proof. simpl. repeat split; reflexivity. Qed.

Section Store.

Context {codec : JsonCodec}.

Lemma save_run v w :
  save_seen_opinions v w =
  (Ok tt, set_files (insert SEEN_OPINIONS_FILE (json_dumps v)) w).
Proof. reflexivity. Qed.

Lemma persisted_after_save v w :
  persisted (set_files (insert SEEN_OPINIONS_FILE (json_dumps v)) w) = Ok v.
Proof.
  unfold persisted. rewrite load_run. unfold store, set_files. simpl.
  rewrite lookup_insert_eq, json_roundtrip. reflexivity.
Qed.

(** C8.  Saving a record list and loading it again gives the list back:
    the same number of values, each a dict with the three keys of its
    record and the record's values under them.  What the file held before
    the save does not matter. *)
Theorem save_then_load_gives_the_records (x : list Opinion) (w : world) :
  fst (save_seen_opinions (PList (map opinion_dict x)) w) = Ok tt /\
  fst (load_seen_opinions (snd (save_seen_opinions (PList (map opinion_dict x)) w))) =
    Ok (PList (map opinion_dict x)) /\
  exists l,
    fst (load_seen_opinions (snd (save_seen_opinions (PList (map opinion_dict x)) w))) =
      Ok (PList l) /\
    Forall2 same_record l x.
Proof.
  rewrite save_run. cbn [fst snd].
  pose proof (persisted_after_save (PList (map opinion_dict x)) w) as Hload.
  unfold persisted in Hload.
  split; [reflexivity|]. split; [exact Hload|].
  exists (map opinion_dict x). split; [exact Hload|].
  induction x as [|r rest IH]; simpl; constructor.
  - apply opinion_dict_same_record.
  - apply IH.
    unfold persisted. rewrite load_run. unfold store, set_files. simpl.
    rewrite lookup_insert_eq, json_roundtrip. reflexivity.
Qed.

Variable e : env.

(** C9, as the code has it.  Without a seen-opinions file the load
    returns the empty list.  With one, the load is the reading of the
    file by [json.load]: the value read, or the exception raised, which
    is the parse error on malformed JSON and can be another one on a file
    that is well formed.  Neither [load_seen_opinions] nor [main] catches
    it: the run ends with that exception, having done nothing but read
    the clock. *)
Theorem load_outcomes (w : world) :
  (store w = None -> load_seen_opinions w = (Ok (PList []), w)) /\
  (forall content, store w = Some content ->
     load_seen_opinions w = (json_loads content, w)) /\
  (forall content x, store w = Some content -> json_loads content = Raise x ->
     load_seen_opinions w = (Raise x, w) /\
     main e w = (Raise x, tick w)).
Proof.
  rewrite load_run. split; [now intros ->|]. split; [now intros content ->|].
  intros content x Hs Hx. rewrite Hs, Hx. split; [reflexivity|].
  pose proof (main_run e w) as Hm. rewrite detect_run in Hm.
  unfold persisted in Hm. rewrite load_run, Hs, Hx in Hm. exact Hm.
Qed.

End Store.

(** ** What a run does to the store (lines 161-191) *)

Section Runs.

Context {codec : JsonCodec}.
Variable e : env.

(** C2.  A run changes the seen-opinions file only if it found new
    opinions and the notifier reported success.  When the notifier fails
    the file is as before; when nothing is new the notifier is not called,
    nothing is fetched or sent, and the file is as before. *)
Theorem store_changes_only_after_successful_send (w : world) :
  (store (snd (main e w)) = store w \/
   (fst (main e w) = Ok Processed /\ notifier_report e w = Some true /\
    exists new_opinions, diffed e w = Some new_opinions /\ new_opinions <> [])) /\
  (notifier_report e w = Some false ->
   fst (main e w) = Ok SendFailed /\ store (snd (main e w)) = store w) /\
  (diffed e w = Some [] ->
   fst (main e w) = Ok NoNew /\ notifier_report e w = None /\
   trace (snd (main e w)) = trace w /\ store (snd (main e w)) = store w).
Proof.
  pose proof (main_run e w) as Hm.
  pose proof (detect_frame e w) as (Hf & _ & Htr).
  unfold diffed, notifier_report.
  destruct (detect e w) as [[[seen new_opinions]|x] w1] eqn:Hdet; cbn [fst snd] in *.
  - assert (Hs1 : store w1 = store w) by (unfold store; now rewrite Hf).
    destruct new_opinions as [|op rest].
    + rewrite Hm. cbn [fst snd]. repeat split; auto; discriminate.
    + destruct Hm as (paths & w2 & sent & w3 & Hd & Hsend & Hs2 & Hf3 & Hm).
      rewrite Hd, Hsend, Hm.
      assert (Hs3 : store w3 = store w) by (unfold store in *; congruence).
      destruct sent.
      * destruct (py_extend seen (op :: rest)) as [ext|x]; cbn [fst snd].
        -- split; [|split; discriminate].
           right. repeat split. exists (op :: rest). split; [reflexivity|discriminate].
        -- split; [now left|split; discriminate].
      * cbn [fst snd]. split; [now left|]. split; [auto|discriminate].
  - rewrite Hm. cbn [fst snd].
    assert (Hs1 : store w1 = store w) by (unfold store; now rewrite Hf).
    split; [now left|split; discriminate].
Qed.


(** C10.  A run only grows the store.  Either the seen-opinions file is
    untouched, or the list it held is written back with the new opinions
    appended; so every value of the list loaded before the run is found
    at the same index, unchanged, by a load after it. *)
Theorem run_only_extends_store (w : world) :
  (store (snd (main e w)) = store w \/
   exists l new_opinions,
     persisted w = Ok (PList l) /\
     persisted (snd (main e w)) = Ok (PList (l ++ map opinion_dict new_opinions))) /\
  (forall l, persisted w = Ok (PList l) ->
     exists suffix,
       persisted (snd (main e w)) = Ok (PList (l ++ suffix)) /\
       forall (i : nat) v, l !! i = Some v -> (l ++ suffix)%list !! i = Some v).
Proof.
  assert (Hcases :
    store (snd (main e w)) = store w \/
    exists l new_opinions,
      persisted w = Ok (PList l) /\
      persisted (snd (main e w)) = Ok (PList (l ++ map opinion_dict new_opinions))).
  { pose proof (main_run e w) as Hm.
    pose proof (detect_frame e w) as (Hf & _ & _).
    destruct (detect e w) as [[[seen new_opinions]|x] w1] eqn:Hdet; cbn [fst snd] in *.
    - assert (Hs1 : store w1 = store w) by (unfold store; now rewrite Hf).
      destruct new_opinions as [|op rest]; [rewrite Hm; now left|].
      destruct Hm as (paths & w2 & sent & w3 & _ & _ & Hs2 & Hf3 & Hm).
      assert (Hs3 : store w3 = store w) by (unfold store in *; congruence).
      rewrite Hm. destruct sent; [|now left].
      destruct seen as [| | | | |l|]; cbn [py_extend snd]; try now left.
      right. exists l, (op :: rest). split.
      + now apply detect_seen in Hdet.
      + apply persisted_after_save.
    - rewrite Hm. left. cbn [snd]. unfold store. now rewrite Hf. }
  split; [exact Hcases|].
  intros l Hl. destruct Hcases as [Hsame|(l' & new_opinions & Hl' & Hafter)].
  - exists []. rewrite app_nil_r. split; [|auto].
    rewrite (persisted_store w _ Hsame). exact Hl.
  - rewrite Hl in Hl'. injection Hl' as <-.
    exists (map opinion_dict new_opinions). split; [exact Hafter|].
    intros i v Hi. now apply lookup_app_l_Some.
Qed.

End Runs.

(** ** What the page renderer keeps (lines 51-107) *)

Lemma contains_truthy needle hay :
  truthy needle = true -> contains needle hay = true -> truthy hay = true.
Proof.
  destruct hay; [|reflexivity]. destruct needle; [discriminate|]. simpl. discriminate.
Qed.

Lemma lower_truthy s : truthy (lower s) = truthy s.
Proof. destruct s; reflexivity. Qed.

Lemma kept_links_prefiltered test (pre keeps : anchor -> bool) links :
  (forall a, (if pre a then kept_links test [a] else []) =
             if keeps a then [link_of a] else []) ->
  kept_links test (List.filter pre links) = map link_of (List.filter keeps links).
Proof.
  intros Hone. induction links as [|a r IH]; [reflexivity|].
  cbn [List.filter]. specialize (Hone a).
  destruct (pre a).
  - rewrite kept_links_cons, Hone, IH. now destruct (keeps a).
  - rewrite IH. destruct (keeps a); [discriminate|reflexivity].
Qed.

Lemma filter_all {A} (l : list A) : List.filter (fun _ => true) l = l.
Proof. induction l as [|a r IH]; simpl; [|rewrite IH]; reflexivity. Qed.

Lemma primary_pass_filter (b : browser) :
  primary_pass b = map link_of (List.filter primary_keeps (dom b)).
Proof.
  unfold primary_pass. apply kept_links_prefiltered.
  intros [[h|] t rd]; unfold has_pdf, primary_keeps, kept_links, read_link, link_of;
    cbn [href text readable flat_map fst snd app].
  - destruct (contains ".pdf" h) eqn:Hpdf.
    + destruct rd; cbn [andb fst snd]; [|reflexivity].
      unfold primary_test. rewrite (contains_truthy ".pdf" h eq_refl Hpdf).
      cbn [andb]. rewrite (Bool.andb_comm (contains "chancery" (lower h))).
      destruct (truthy (strip t) && contains "chancery" (lower h)); reflexivity.
    + now rewrite Bool.andb_false_r.
  - now rewrite Bool.andb_false_r.
Qed.

Lemma fallback_pass_filter (b : browser) :
  fallback_pass b = map link_of (List.filter fallback_keeps (dom b)).
Proof.
  unfold fallback_pass. rewrite <- (filter_all (dom b)) at 1.
  apply kept_links_prefiltered.
  intros [[h|] t rd]; unfold fallback_keeps, kept_links, read_link, link_of;
    cbn [href text readable flat_map fst snd app].
  - destruct rd; cbn [andb fst snd]; [|reflexivity].
    unfold fallback_test.
    destruct (contains ".pdf" (lower h)) eqn:Hpdf.
    + pose proof (contains_truthy ".pdf" (lower h) eq_refl Hpdf) as Ht.
      rewrite lower_truthy in Ht. rewrite Ht. cbn [andb].
      destruct (truthy (strip t)); reflexivity.
    + now rewrite Bool.andb_false_r.
  - destruct rd; reflexivity.
Qed.

Lemma kept_links_readable test links :
  kept_links test (List.filter readable links) = kept_links test links.
Proof.
  induction links as [|a r IH]; [reflexivity|].
  rewrite (kept_links_cons test a r), <- IH. cbn [List.filter].
  destruct (readable a) eqn:Hr.
  - apply kept_links_cons.
  - unfold kept_links at 2, read_link. simpl. rewrite Hr. reflexivity.
Qed.

Lemma filter_comm {A} (f g : A -> bool) (l : list A) :
  List.filter f (List.filter g l) = List.filter g (List.filter f l).
Proof.
  induction l as [|a r IH]; [reflexivity|]. simpl.
  destruct (f a) eqn:Hf, (g a) eqn:Hg; simpl; rewrite ?Hf, ?Hg, IH; reflexivity.
Qed.

Lemma candidates_drop_unreadable b : candidates (drop_unreadable b) = candidates b.
Proof.
  unfold candidates, primary_pass, fallback_pass, drop_unreadable. simpl.
  rewrite filter_comm, !kept_links_readable. reflexivity.
Qed.

Section Rendering.

Variable e : env.

(** C5.  On a page that was rendered and searched without failure, the
    renderer keeps exactly the anchors whose target contains [.pdf] and,
    case-insensitively, [chancery], and whose visible text is not empty;
    if and only if there is none, it keeps instead every anchor whose
    target contains [.pdf] case-insensitively and whose visible text is
    not empty.  The records come in document order, titled by the visible
    text and stamped with consecutive readings of the clock. *)
Theorem renderer_keeps_primary_else_fallback (w : world) :
  browser_works (page e) = true ->
  exists opinions,
    fst (scrape_chancery_opinions e w) = Ok opinions /\
    (List.filter primary_keeps (dom (page e)) <> [] ->
     map (fun op => (title op, url op)) opinions =
       map link_of (List.filter primary_keeps (dom (page e)))) /\
    (List.filter primary_keeps (dom (page e)) = [] ->
     map (fun op => (title op, url op)) opinions =
       map link_of (List.filter fallback_keeps (dom (page e)))) /\
    map date_found opinions = map (clock_iso e) (seq (ticks w) (length opinions)).
Proof.
  unfold browser_works. intros Hok.
  apply andb_prop in Hok as [Hok Hquit]. apply andb_prop in Hok as [Hok Hall].
  apply andb_prop in Hok as [Hok Hpdf]. apply andb_prop in Hok as [Hsetup Hget].
  rewrite scrape_run, Hsetup, Hquit. cbn [fst].
  exists (stamp e (ticks w) (candidates (page e))).
  split; [reflexivity|].
  rewrite stamp_links, stamp_dates, stamp_length.
  unfold candidates. rewrite Hget, Hpdf, Hall. cbn [andb].
  rewrite primary_pass_filter, fallback_pass_filter.
  destruct (List.filter primary_keeps (dom (page e))) as [|a r]; cbn [map].
  - split; [intros H; now contradict H|]. split; reflexivity.
  - split; [reflexivity|]. split; [discriminate|reflexivity].
Qed.

(** C6, as the code has it.  Once the driver exists, and provided it can
    be shut down, nothing raised while rendering leaves the renderer: a
    failed page load or element search ends the run of the renderer with
    no candidate, while an anchor that cannot be read is only skipped, so
    the result is the one of the page without such anchors. *)
Theorem renderer_contains_exceptions (w : world) :
  setup_ok (page e) = true ->
  quit_ok (page e) = true ->
  exists opinions,
    fst (scrape_chancery_opinions e w) = Ok opinions /\
    (get_ok (page e) = false \/ find_pdf_ok (page e) = false \/
     (find_all_ok (page e) = false /\ primary_pass (page e) = []) ->
     opinions = []) /\
    fst (scrape_chancery_opinions (set_page (drop_unreadable (page e)) e) w) =
      Ok opinions.
Proof.
  intros Hsetup Hquit.
  rewrite !scrape_run. cbn [page set_page drop_unreadable setup_ok quit_ok].
  rewrite Hsetup, Hquit. cbn [fst].
  exists (stamp e (ticks w) (candidates (page e))).
  split; [reflexivity|]. split.
  - unfold candidates. intros [Hget|[Hpdf|[Hall Hprim]]].
    + now rewrite Hget.
    + rewrite Hpdf, Bool.andb_false_r. reflexivity.
    + rewrite Hprim, Hall. now destruct (get_ok (page e) && find_pdf_ok (page e)).
  - fold (drop_unreadable (page e)). rewrite candidates_drop_unreadable. reflexivity.
Qed.

End Rendering.

(** ** Further properties of runs *)

Lemma stamp_urls e n links : map url (stamp e n links) = map snd links.
Proof.
  revert n. induction links as [|tu r IH]; intros n; simpl; [reflexivity|].
  now rewrite IH.
Qed.

Lemma map_filter_sublist {A B} (g : A -> B) (f : A -> bool) (l : list A) :
  sublist (map g (List.filter f l)) (map g l).
Proof.
  induction l as [|a r IH]; simpl; [constructor|].
  destruct (f a); simpl; now constructor.
Qed.

Section Invariant.

Context {codec : JsonCodec}.

(** What [detect] returns when it returns: the loaded value, and the
    candidates of the page, stamped, without those whose url was seen. *)
Lemma detect_new e w seen new_opinions w1 :
  detect e w = (Ok (seen, new_opinions), w1) ->
  persisted w = Ok seen /\
  setup_ok (page e) = true /\ quit_ok (page e) = true /\
  exists seen_urls,
    seen_urls_of seen = Ok seen_urls /\
    new_opinions =
      new_opinions_of (stamp e (S (ticks w)) (candidates (page e))) seen_urls.
Proof.
  rewrite detect_run.
  destruct (persisted w) as [sn|x]; [|discriminate].
  destruct (seen_urls_of sn) as [urls|x] eqn:Hurls; [|discriminate].
  rewrite scrape_run.
  destruct (setup_ok (page e)); [|discriminate].
  destruct (quit_ok (page e)); [|discriminate].
  intros H. injection H as <- <- _.
  repeat split; trivial. exists urls. split; [exact Hurls|reflexivity].
Qed.

(** One run keeps a store of records with distinct urls that way, when
    the page's kept links have distinct targets. *)
Lemma run_keeps_urls_distinct e w records :
  persisted w = Ok (PList (map opinion_dict records)) ->
  NoDup (map url records) ->
  distinct_targets (page e) ->
  exists records',
    persisted (snd (main e w)) = Ok (PList (map opinion_dict records')) /\
    NoDup (map url records').
Proof.
  intros Hrec Hnd Hdist.
  pose proof (main_run e w) as Hm.
  pose proof (detect_frame e w) as (Hf & _ & _).
  destruct (detect e w) as [[[seen new_opinions]|x] w1] eqn:Hdet; cbn [fst snd] in *.
  - assert (Hs1 : store w1 = store w) by (unfold store; now rewrite Hf).
    apply detect_new in Hdet as (Hseen & _ & _ & urls & Hurls & Hnew).
    rewrite Hrec in Hseen. injection Hseen as <-.
    rewrite seen_urls_of_records in Hurls. injection Hurls as <-.
    destruct new_opinions as [|op rest].
    { rewrite Hm. cbn [snd]. exists records. now rewrite (persisted_store w w1 Hs1). }
    destruct Hm as (paths & w2 & sent & w3 & _ & _ & Hs2 & Hf3 & Hm).
    assert (Hs3 : store w3 = store w) by (unfold store in *; congruence).
    rewrite Hm. destruct sent; cbn [py_extend snd].
    + exists (records ++ op :: rest)%list.
      rewrite persisted_after_save, !map_app. split; [reflexivity|].
      apply NoDup_app. split; [exact Hnd|]. split.
      * intros u Hu Hu'. apply list_elem_of_In in Hu, Hu'.
        apply in_map_iff in Hu' as (r & <- & Hr).
        rewrite Hnew in Hr. apply new_opinions_unseen in Hr as [_ Hr]. now apply Hr.
      * rewrite Hnew. unfold new_opinions_of.
        eapply sublist_NoDup; [|apply map_filter_sublist].
        rewrite stamp_urls. exact Hdist.
    + exists records. now rewrite (persisted_store w w3 Hs3).
  - rewrite Hm. cbn [snd]. exists records.
    assert (Hs1 : store w1 = store w) by (unfold store; now rewrite Hf).
    now rewrite (persisted_store w w1 Hs1).
Qed.

(** X2.  Every store reached from the empty store by runs against pages
    whose kept links have distinct targets is a list of records no two of
    which share a url. *)
Theorem distinct_targets_keep_urls_unique (w : world) :
  reachable_distinct w ->
  exists records,
    persisted w = Ok (PList (map opinion_dict records)) /\ NoDup (map url records).
Proof.
  induction 1 as [w Hfresh|e w _ (records & Hrec & Hnd) Hdist].
  - exists []. split; [|constructor].
    unfold persisted. rewrite load_run, Hfresh. reflexivity.
  - exact (run_keeps_urls_distinct e w records Hrec Hnd Hdist).
Qed.

End Invariant.

Lemma collect_urls_app l seen_urls (new_opinions : list Opinion) :
  collect_urls l = Ok seen_urls ->
  collect_urls (l ++ map opinion_dict new_opinions) =
    Ok (seen_urls ++ map (fun r => PStr (url r)) new_opinions)%list.
Proof.
  revert seen_urls. induction l as [|v r IH]; intros seen_urls; simpl.
  - intros H. injection H as <-. apply (seen_urls_of_records new_opinions).
  - destruct (getitem_url v) as [u|x]; [|discriminate].
    destruct (hashable u); [|discriminate].
    destruct (collect_urls r) as [us|x]; [|discriminate].
    intros H. injection H as <-. now rewrite (IH us eq_refl).
Qed.

Lemma str_in_app u l1 l2 : str_in u (l1 ++ l2) = str_in u l1 || str_in u l2.
Proof. unfold str_in. apply existsb_app. Qed.

Lemma filter_none {A} (f : A -> bool) (l : list A) :
  (forall x, In x l -> f x = false) -> List.filter f l = [].
Proof.
  induction l as [|a r IH]; intros H; simpl; [reflexivity|].
  rewrite (H a (or_introl eq_refl)). apply IH. intros x Hx. apply H. now right.
Qed.

(** The same links, scraped again at another time, are all seen once the
    new ones among them have been appended. *)
Lemma rescrape_is_all_seen e e' n n' links seen_urls :
  new_opinions_of (stamp e' n' links)
    (seen_urls ++ map (fun r => PStr (url r))
                      (new_opinions_of (stamp e n links) seen_urls)) = [].
Proof.
  unfold new_opinions_of at 1. apply filter_none. intros x Hx.
  rewrite Bool.negb_false_iff, str_in_app.
  destruct (str_in (url x) seen_urls) eqn:Hseen; [reflexivity|]. cbn [orb].
  rewrite str_in_urls. apply List.existsb_exists. exists (url x).
  split; [|apply String.eqb_refl].
  assert (Hu : In (url x) (map url (stamp e n links))).
  { rewrite stamp_urls, <- (stamp_urls e' n'). now apply in_map. }
  apply in_map_iff in Hu as (x1 & Hurl & Hx1).
  apply in_map_iff. exists x1. split; [exact Hurl|].
  unfold new_opinions_of. apply List.filter_In. split; [exact Hx1|].
  now rewrite Hurl, Hseen.
Qed.

Section Idempotence.

Context {codec : JsonCodec}.

(** X3.  After a run that ended in [Processed], a run against the same
    page finds nothing new, whatever the clock, the server and the
    transport do then. *)
Theorem second_run_finds_nothing_new (e e' : env) (w : world) :
  fst (main e w) = Ok Processed ->
  page e' = page e ->
  diffed e' (snd (main e w)) = Some [] /\
  fst (main e' (snd (main e w))) = Ok NoNew.
Proof.
  intros Hdone Hpage.
  pose proof (main_run e w) as Hm.
  destruct (detect e w) as [[[seen new_opinions]|x] w1] eqn:Hdet;
    [|rewrite Hm in Hdone; discriminate].
  destruct new_opinions as [|op rest]; [rewrite Hm in Hdone; discriminate|].
  destruct Hm as (paths & w2 & sent & w3 & _ & _ & _ & _ & Hm).
  rewrite Hm in Hdone |- *. clear Hm.
  destruct sent; [|discriminate].
  apply detect_new in Hdet as (_ & Hsetup & Hquit & urls & Hurls & Hnew).
  destruct seen as [| | | | |l|]; cbn [py_extend fst snd] in *; try discriminate.
  set (wf := set_files _ w3).
  assert (Hdet' : exists w', detect e' wf =
            (Ok (PList (l ++ map opinion_dict (op :: rest)), []), w')).
  { rewrite detect_run. unfold wf. rewrite persisted_after_save.
    unfold seen_urls_of in *. cbn [py_iter] in *.
    rewrite (collect_urls_app l urls (op :: rest) Hurls).
    rewrite scrape_run, Hpage, Hsetup, Hquit.
    rewrite Hnew, (rescrape_is_all_seen e e'). eauto. }
  destruct Hdet' as (w' & Hdet').
  split.
  - unfold diffed. now rewrite Hdet'.
  - pose proof (main_run e' wf) as Hm'. rewrite Hdet' in Hm'. now rewrite Hm'.
Qed.

End Idempotence.

Section Fetching.

Variable e : env.

(** A download that returns a path has written a file there; one that
    returns nothing has written no file, and a refused request returns
    nothing. *)
Lemma download_pdf_effect u filename w :
  match download_pdf e u filename w with
  | (Ok (Some path), w') =>
      path = downloads_path filename /\
      exists content, http e u = Some content /\
                      files w' = <[path := content]> (files w)
  | (Ok None, w') => files w' = files w
  | (Raise _, _) => False
  end.
Proof.
  unfold download_pdf, requests_get, mkdir_parent, write_binary. st_unfold.
  destruct (http e u) as [content|]; [|reflexivity].
  destruct (String.eqb filename "" || String.eqb filename ".").
  - destruct (is_directory _ _); [reflexivity|].
    destruct (fs_accepts e (downloads_path filename)); [|reflexivity]. cbn. eauto.
  - destruct (files (emit (EvGet u) w) !! DOWNLOADS); [reflexivity|].
    destruct (downloads_dir (emit (EvGet u) w) || fs_accepts e DOWNLOADS); [|reflexivity].
    destruct (is_directory _ _); [reflexivity|].
    destruct (fs_accepts e (downloads_path filename)); [|reflexivity]. cbn. eauto.
Qed.


Lemma attach_all_present pdf_paths w :
  Forall (fun p => is_Some (files w !! p)) pdf_paths ->
  attach_all pdf_paths w =
  (Ok (map (fun p => (last_segment p, default EmptyString (files w !! p))) pdf_paths), w).
Proof.
  induction 1 as [|p rest [content Hp] _ IH]; [reflexivity|].
  cbn [attach_all]. unfold bind at 1, attach. rewrite Hp.
  unfold bind at 1. rewrite IH. cbn [map]. rewrite Hp. reflexivity.
Qed.


End Fetching.

(** ** Searching in strings *)

Lemma prefix_empty s : String.prefix EmptyString s = true.
Proof. destruct s; reflexivity. Qed.

Lemma append_cons c p s : String c p +:+ s = String c (p +:+ s).
Proof. reflexivity. Qed.

Lemma append_empty s : EmptyString +:+ s = s.
Proof. reflexivity. Qed.

Lemma prefix_append n s : String.prefix n (n +:+ s) = true.
Proof.
  induction n as [|c n IH]; rewrite ?append_cons, ?append_empty; simpl;
    [apply prefix_empty|].
  destruct (ascii_dec c c) as [_|Hne]; [exact IH|now contradict Hne].
Qed.

Lemma prefix_append_r n s q :
  String.prefix n s = true -> String.prefix n (s +:+ q) = true.
Proof.
  revert s. induction n as [|c n IH]; intros s; [intros _; apply prefix_empty|].
  destruct s as [|b s]; rewrite ?append_cons; simpl; [discriminate|].
  destruct (ascii_dec c b); [apply IH|discriminate].
Qed.

Lemma contains_prefix n s : String.prefix n s = true -> contains n s = true.
Proof. intros H. destruct s; cbn [contains]; now rewrite H. Qed.

Lemma contains_here n s : contains n (n +:+ s) = true.
Proof. apply contains_prefix, prefix_append. Qed.

Lemma contains_later n p s : contains n s = true -> contains n (p +:+ s) = true.
Proof.
  intros H. induction p as [|c p IH]; [exact H|].
  rewrite append_cons. cbn [contains]. rewrite IH.
  now destruct (String.prefix n (String c (p +:+ s))).
Qed.

Lemma contains_earlier n s q : contains n s = true -> contains n (s +:+ q) = true.
Proof.
  induction s as [|c s IH]; rewrite ?append_cons; cbn [contains].
  - destruct (String.prefix n EmptyString) eqn:Hp; [|discriminate].
    intros _. apply contains_prefix. now apply (prefix_append_r n EmptyString q).
  - destruct (String.prefix n (String c s)) eqn:Hp.
    + intros _. apply (prefix_append_r n (String c s) q) in Hp.
      rewrite append_cons in Hp. now rewrite Hp.
    + intros H. rewrite (IH H).
      now destruct (String.prefix n (String c (s +:+ q))).
Qed.

(** A string that stands between two others is found in the whole. *)
Lemma contains_middle n p q : contains n (p +:+ n +:+ q) = true.
Proof. apply contains_later, contains_here. Qed.

Lemma contains_concat n x (l : list string) :
  In x l -> contains n x = true -> contains n (String.concat EmptyString l) = true.
Proof.
  intros Hin Hx. induction l as [|y r IH]; [contradiction|].
  destruct Hin as [->|Hin].
  - destruct r; simpl; [exact Hx|]. now apply contains_earlier.
  - destruct r as [|z r]; [contradiction|].
    change (String.concat EmptyString (y :: z :: r))
      with (y +:+ EmptyString +:+ String.concat EmptyString (z :: r)).
    apply contains_later. simpl. apply IH, Hin.
Qed.

(** X4.  The body of the message names every new record: its title and
    its url both occur in the text. *)
Theorem email_body_names_every_record (new_opinions : list Opinion) (op : Opinion) :
  In op new_opinions ->
  contains (title op) (email_body new_opinions) = true /\
  contains (url op) (email_body new_opinions) = true.
Proof.
  intros Hin. unfold email_body.
  assert (Hline : In (body_line op) (map body_line new_opinions)) by now apply in_map.
  split.
  - do 5 apply contains_later.
    apply (contains_concat _ (body_line op)); [exact Hline|].
    unfold body_line. apply contains_middle.
  - do 5 apply contains_later.
    apply (contains_concat _ (body_line op)); [exact Hline|].
    unfold body_line. do 4 apply contains_later. apply contains_here.
Qed.

(** ** File names (line 179) and download paths (line 115) *)

Lemma append_assoc_cons cur c r :
  (cur +:+ String c EmptyString) +:+ r = cur +:+ String c r.
Proof.
  induction cur as [|b cur IH]; [reflexivity|].
  rewrite !append_cons, IH. reflexivity.
Qed.

Lemma contains_char_cons x c s :
  contains (String x EmptyString) (String c s) =
  Ascii.eqb x c || contains (String x EmptyString) s.
Proof.
  cbn [contains String.prefix].
  destruct (ascii_dec x c) as [->|Hne].
  - now rewrite prefix_empty, Ascii.eqb_refl.
  - apply Ascii.eqb_neq in Hne. now rewrite Hne.
Qed.

Lemma contains_char_append x a b :
  contains (String x EmptyString) (a +:+ b) =
  contains (String x EmptyString) a || contains (String x EmptyString) b.
Proof.
  induction a as [|c a IH]; [reflexivity|].
  rewrite append_cons, !contains_char_cons, IH. apply Bool.orb_assoc.
Qed.

Lemma split_last_no_slash s : forall cur,
  contains "/" cur = false -> contains "/" (split_last cur s) = false.
Proof.
  induction s as [|c s IH]; intros cur Hcur; [exact Hcur|].
  cbn [split_last]. destruct (Ascii.eqb c "/") eqn:Hc.
  - apply IH. reflexivity.
  - apply IH. rewrite contains_char_append, Hcur, contains_char_cons.
    rewrite Ascii.eqb_sym, Hc. reflexivity.
Qed.

(** The file name derived from a url holds no slash. *)
Lemma last_segment_no_slash u : contains "/" (last_segment u) = false.
Proof. apply split_last_no_slash. reflexivity. Qed.

Lemma split_last_plain s : forall cur,
  contains "/" s = false -> split_last cur s = cur +:+ s.
Proof.
  induction s as [|c s IH]; intros cur Hs.
  - cbn [split_last]. induction cur as [|b cur IHc]; [reflexivity|].
    now rewrite append_cons, <- IHc.
  - rewrite contains_char_cons in Hs. apply Bool.orb_false_iff in Hs as [Hc Hs].
    cbn [split_last]. rewrite Ascii.eqb_sym, Hc, (IH _ Hs).
    apply append_assoc_cons.
Qed.

(** The last component of a path directly under [downloads] is the file
    name it was built from. *)
Lemma last_segment_downloads name :
  contains "/" name = false -> last_segment (DOWNLOADS +:+ "/" +:+ name) = name.
Proof.
  intros H. unfold last_segment, DOWNLOADS.
  change ("downloads" +:+ "/" +:+ name) with
    (String "d" (String "o" (String "w" (String "n" (String "l" (String "o"
      (String "a" (String "d" (String "s" (String "/" name)))))))))).
  cbn [split_last Ascii.eqb Bool.eqb]. now rewrite (split_last_plain name EmptyString H).
Qed.

Section Paths.

Variable e : env.

(** X5.  A download that writes a file writes it to [downloads] itself or
    to a file directly inside [downloads/], whose name holds no slash and
    is not [..]: whatever the url, no other file changes, and never the
    seen-opinions file. *)
Theorem downloads_stay_in_downloads_directory (u : string) (w w' : world) (path : string) :
  download_pdf e u (last_segment u) w = (Ok (Some path), w') ->
  (path = DOWNLOADS \/
   exists name, path = DOWNLOADS +:+ "/" +:+ name /\
                contains "/" name = false /\ name <> "..") /\
  (forall q, q <> path -> files w' !! q = files w !! q) /\
  path <> SEEN_OPINIONS_FILE.
Proof.
  intros Hrun.
  assert (Hshape : path = downloads_path (last_segment u) /\
                   String.eqb path (DOWNLOADS +:+ "/..") = false /\
                   exists content, files w' = <[path := content]> (files w)).
  { revert Hrun. unfold download_pdf, requests_get, mkdir_parent, write_binary.
    st_unfold. destruct (http e u) as [content|]; [|discriminate].
    destruct (String.eqb (last_segment u) "" || String.eqb (last_segment u) ".") eqn:Hf.
    - destruct (is_directory _ _) eqn:Hdir; [discriminate|].
      destruct (fs_accepts e (downloads_path (last_segment u))); [|discriminate].
      intros H. injection H as <- <-. split; [reflexivity|]. split; [|eauto].
      unfold downloads_path. rewrite Hf. reflexivity.
    - destruct (files (emit (EvGet u) w) !! DOWNLOADS); [discriminate|].
      destruct (downloads_dir (emit (EvGet u) w) || fs_accepts e DOWNLOADS); [|discriminate].
      destruct (is_directory _ _) eqn:Hdir; [discriminate|].
      destruct (fs_accepts e (downloads_path (last_segment u))); [|discriminate].
      intros H. injection H as <- <-. split; [reflexivity|]. split; [|eauto].
      unfold is_directory in Hdir. now apply Bool.orb_false_iff in Hdir as [_ Hdir]. }
  destruct Hshape as (-> & Hdots & content & Hfiles).
  split; [|split].
  - unfold downloads_path in *.
    destruct (String.eqb (last_segment u) "" || String.eqb (last_segment u) ".");
      [now left|right].
    exists (last_segment u). split; [reflexivity|].
    split; [apply last_segment_no_slash|].
    intros Heq. rewrite Heq in Hdots. discriminate.
  - intros q Hq. rewrite Hfiles. now apply lookup_insert_ne.
  - apply downloads_path_not_store.
Qed.

(** X6.  What was downloaded is what gets attached: right after a
    successful download, attaching the returned path gives the body the
    server sent, under the file name derived from the url (under
    [downloads] when the url ends in a slash). *)
Theorem downloaded_document_is_attached (u : string) (w w' : world) (path : string) :
  download_pdf e u (last_segment u) w = (Ok (Some path), w') ->
  exists content,
    http e u = Some content /\
    attach path w' = (Ok [(last_segment path, content)], w') /\
    last_segment path =
      if String.eqb (last_segment u) "" || String.eqb (last_segment u) "."
      then DOWNLOADS else last_segment u.
Proof.
  intros Hrun.
  pose proof (download_pdf_effect e u (last_segment u) w) as Heff.
  rewrite Hrun in Heff. destruct Heff as (-> & content & Hhttp & Hfiles).
  exists content. split; [exact Hhttp|]. split.
  - unfold attach. now rewrite Hfiles, lookup_insert_eq.
  - unfold downloads_path.
    destruct (String.eqb (last_segment u) "" || String.eqb (last_segment u) ".");
      [reflexivity|].
    apply last_segment_downloads, last_segment_no_slash.
Qed.

End Paths.

(** ** Downloads under distinct names *)

Lemma append_inj_l p a b : p +:+ a = p +:+ b -> a = b.
Proof.
  induction p as [|c p IH]; [now rewrite !append_empty|].
  rewrite !append_cons. intros H. injection H as H. now apply IH.
Qed.

Lemma append_empty_r s : s +:+ EmptyString = s.
Proof. induction s as [|c s IH]; [reflexivity|]. now rewrite append_cons, IH. Qed.

Lemma downloads_path_proper filename :
  proper_name filename = true ->
  downloads_path filename = DOWNLOADS +:+ "/" +:+ filename /\
  downloads_path filename <> DOWNLOADS /\
  downloads_path filename <> DOWNLOADS +:+ "/..".
Proof.
  unfold proper_name, downloads_path. rewrite Bool.negb_true_iff.
  intros H. apply Bool.orb_false_iff in H as [H Hdots]. rewrite H.
  split; [reflexivity|]. split.
  - intros Heq. rewrite <- (append_empty_r DOWNLOADS) in Heq at 2.
    apply append_inj_l in Heq. discriminate.
  - intros Heq. apply append_inj_l in Heq. injection Heq as Heq.
    apply String.eqb_neq in Hdots. now apply Hdots.
Qed.

Section DistinctNames.

Variable e : env.

Lemma download_pdf_refused u filename w :
  http e u = None -> download_pdf e u filename w = (Ok None, emit (EvGet u) w).
Proof.
  intros H. unfold download_pdf, requests_get. st_unfold. now rewrite H.
Qed.

Lemma download_pdf_proper u filename content w :
  http e u = Some content ->
  proper_name filename = true ->
  files w !! DOWNLOADS = None ->
  downloads_dir w || fs_accepts e DOWNLOADS = true ->
  fs_accepts e (downloads_path filename) = true ->
  exists w',
    download_pdf e u filename w = (Ok (Some (downloads_path filename)), w') /\
    files w' = <[downloads_path filename := content]> (files w) /\
    downloads_dir w' = true.
Proof.
  intros Hhttp Hname Hdl Hdir Hfs.
  destruct (downloads_path_proper filename Hname) as (_ & Hne & Hdots).
  unfold download_pdf, requests_get, mkdir_parent, write_binary. st_unfold.
  rewrite Hhttp.
  assert (Hf : String.eqb filename "" || String.eqb filename "." = false).
  { unfold proper_name in Hname. rewrite Bool.negb_true_iff in Hname.
    now apply Bool.orb_false_iff in Hname as [Hname _]. }
  rewrite Hf. cbn [files downloads_dir emit]. rewrite Hdl, Hdir.
  unfold is_directory.
  apply String.eqb_neq in Hne, Hdots. rewrite Hne, Hdots. cbn [andb orb].
  rewrite Hfs. eexists. repeat split.
Qed.

Lemma download_all_distinct new_opinions : forall pdf_paths w,
  files w !! DOWNLOADS = None ->
  downloads_dir w || fs_accepts e DOWNLOADS = true ->
  Forall (fun op => proper_name (last_segment (url op)) = true) new_opinions ->
  Forall (fun op => fs_accepts e (path_of op) = true)
         (List.filter (fetched e) new_opinions) ->
  NoDup (pdf_paths ++ map path_of (List.filter (fetched e) new_opinions)) ->
  exists w',
    download_all e new_opinions pdf_paths w =
      (Ok (pdf_paths ++ map path_of (List.filter (fetched e) new_opinions))%list, w') /\
    (forall p, In p pdf_paths -> files w' !! p = files w !! p) /\
    (forall op, In op (List.filter (fetched e) new_opinions) ->
                files w' !! path_of op = http e (url op)).
Proof.
  induction new_opinions as [|op rest IH]; intros pdf_paths w Hdl Hdir Hnames Hfs Hnd.
  - exists w. cbn [download_all List.filter map]. rewrite app_nil_r.
    split; [reflexivity|]. split; [reflexivity|]. intros op [].
  - apply Forall_cons in Hnames as [Hname Hnames].
    cbn [download_all List.filter] in Hnd, Hfs |- *. unfold bind at 1.
    destruct (http e (url op)) as [content|] eqn:Hhttp.
    + assert (Hfe : fetched e op = true) by (unfold fetched; now rewrite Hhttp).
      rewrite Hfe in Hnd, Hfs |- *.
      apply Forall_cons in Hfs as [Hfs1 Hfs].
      destruct (download_pdf_proper (url op) _ content w Hhttp Hname Hdl Hdir Hfs1)
        as (w1 & -> & Hfiles & Hdir1).
      fold (path_of op) in *. cbn [map] in Hnd.
      destruct (downloads_path_proper _ Hname) as (_ & Hne & _). fold (path_of op) in Hne.
      destruct (IH (pdf_paths ++ [path_of op])%list w1) as (w' & Hrun & Hacc & Hnew).
      { rewrite Hfiles. now rewrite lookup_insert_ne. }
      { now rewrite Hdir1. }
      { exact Hnames. }
      { exact Hfs. }
      { now rewrite <- app_assoc. }
      exists w'. rewrite <- app_assoc in Hrun. split; [exact Hrun|].
      assert (Hop : files w' !! path_of op = Some content).
      { rewrite (Hacc (path_of op)) by (apply in_or_app; right; now left).
        rewrite Hfiles. apply lookup_insert_eq. }
      split.
      * intros p Hp. rewrite (Hacc p) by (apply in_or_app; now left).
        rewrite Hfiles. apply lookup_insert_ne. intros <-.
        apply NoDup_app in Hnd as (_ & Hdisj & _).
        apply (Hdisj (path_of op)); [now apply list_elem_of_In|].
        apply list_elem_of_In. now left.
      * intros op' [<-|Hin]; [now rewrite Hop|]. now apply Hnew.
    + assert (Hfe : fetched e op = false) by (unfold fetched; now rewrite Hhttp).
      rewrite Hfe in Hnd, Hfs |- *.
      rewrite (download_pdf_refused (url op) _ w Hhttp).
      destruct (IH pdf_paths (emit (EvGet (url op)) w) Hdl Hdir Hnames Hfs Hnd)
        as (w' & Hrun & Hacc & Hnew).
      exists w'. split; [exact Hrun|]. split; [exact Hacc|exact Hnew].
Qed.

(** With proper and distinct file names the fetch loop and the notifier
    compose to one message with the fetched documents. *)
Lemma fetch_and_send_distinct (new_opinions : list Opinion) (w : world) :
  files w !! DOWNLOADS = None ->
  downloads_dir w || fs_accepts e DOWNLOADS = true ->
  Forall (fun op => proper_name (last_segment (url op)) = true) new_opinions ->
  Forall (fun op => fs_accepts e (path_of op) = true)
         (List.filter (fetched e) new_opinions) ->
  NoDup (map path_of (List.filter (fetched e) new_opinions)) ->
  exists w2 m,
    download_all e new_opinions [] w =
      (Ok (map path_of (List.filter (fetched e) new_opinions)), w2) /\
    store w2 = store w /\
    trace w2 = (trace w ++ map (fun op => EvGet (url op)) new_opinions)%list /\
    send_email e new_opinions (map path_of (List.filter (fetched e) new_opinions)) w2 =
      (Ok (smtp e m), emit (EvSend m) (tick w2)) /\
    e_body m = email_body new_opinions /\
    e_attachments m = map (document_of e) (List.filter (fetched e) new_opinions).
Proof.
  intros Hdl Hdir Hnames Hfs Hnd.
  destruct (download_all_distinct new_opinions [] w Hdl Hdir Hnames Hfs Hnd)
    as (w2 & Hrun & _ & Hnew).
  cbn [app] in Hrun.
  destruct (download_all_run e new_opinions [] w) as (paths' & w2' & Hrun' & Hst & _ & Htr).
  rewrite Hrun in Hrun'. injection Hrun' as <- <-.
  set (docs := List.filter (fetched e) new_opinions) in *.
  assert (Hdocs : forall op, In op docs ->
            (last_segment (path_of op), default EmptyString (files w2 !! path_of op)) =
            document_of e op).
  { intros op Hop. unfold document_of. rewrite (Hnew op Hop). f_equal.
    assert (Hname : proper_name (last_segment (url op)) = true).
    { rewrite List.Forall_forall in Hnames. apply Hnames.
      unfold docs in Hop. now apply List.filter_In in Hop as [Hop _]. }
    unfold path_of. destruct (downloads_path_proper _ Hname) as (-> & _).
    apply last_segment_downloads, last_segment_no_slash. }
  assert (Hatt : attach_all (map path_of docs) (tick w2) =
                 (Ok (map (document_of e) docs), tick w2)).
  { rewrite attach_all_present.
    - f_equal. f_equal. rewrite map_map. apply map_ext_in. exact Hdocs.
    - apply Forall_forall. intros p Hp. apply list_elem_of_In, in_map_iff in Hp as (op & <- & Hop).
      cbn [files tick]. rewrite (Hnew op Hop).
      unfold docs in Hop. apply List.filter_In in Hop as [_ Hop].
      unfold fetched in Hop. destruct (http e (url op)); [eauto|discriminate]. }
  exists w2,
    (mkEmail (EMAIL_FROM e) (EMAIL_TO e)
       ("New Delaware Court of Chancery Opinions - " +:+ clock_ymd e (ticks w2))
       (email_body new_opinions) (map (document_of e) docs)).
  split; [exact Hrun|]. split; [exact Hst|]. split; [exact Htr|].
  split; [|split; reflexivity].
  unfold send_email, now_ymd, smtp_send. st_unfold.
  rewrite Hatt. now destruct (smtp e _).
Qed.

(** X7.  When the new records have proper file names, those of the
    records the server delivers are pairwise distinct and accepted by the
    operating system, no regular file is called [downloads] and that
    directory exists or can be created, the one mail session attempted is for
    a message that attaches exactly the documents fetched: for each record
    whose request succeeded, in order, the body the server sent, under the
    file name of its url. *)
Theorem distinct_names_attach_the_fetched_documents (new_opinions : list Opinion)
    (w : world) :
  files w !! DOWNLOADS = None ->
  downloads_dir w || fs_accepts e DOWNLOADS = true ->
  Forall (fun op => proper_name (last_segment (url op)) = true) new_opinions ->
  Forall (fun op => fs_accepts e (path_of op) = true)
         (List.filter (fetched e) new_opinions) ->
  NoDup (map path_of (List.filter (fetched e) new_opinions)) ->
  exists w2 m,
    download_all e new_opinions [] w =
      (Ok (map path_of (List.filter (fetched e) new_opinions)), w2) /\
    send_email e new_opinions (map path_of (List.filter (fetched e) new_opinions)) w2 =
      (Ok (smtp e m), emit (EvSend m) (tick w2)) /\
    e_body m = email_body new_opinions /\
    e_attachments m = map (document_of e) (List.filter (fetched e) new_opinions).
Proof.
  intros Hdl Hdir Hnames Hfs Hnd.
  destruct (fetch_and_send_distinct new_opinions w Hdl Hdir Hnames Hfs Hnd)
    as (w2 & m & Hrun & _ & _ & Hsend & Hbody & Hatt).
  exists w2, m. auto.
Qed.

End DistinctNames.

(** ** Runs that cannot finish *)


Lemma collect_urls_unsound l :
  forallb has_url l = false ->
  exists x, (x = KeyError \/ x = TypeError) /\ collect_urls l = Raise x.
Proof.
  induction l as [|v r IH]; [discriminate|].
  cbn [forallb collect_urls]. intros H.
  destruct v as [| | | | | |items]; cbn [getitem_url]; eauto.
  cbn [has_url] in H.
  destruct (dict_get "url" items) as [u|]; [|eauto].
  destruct (hashable u); [|eauto].
  destruct (IH H) as (x & Hx & ->). eauto.
Qed.

Section Aborts.

Context {codec : JsonCodec}.
Variable e : env.

(** X8.  One stored value without a usable ["url"] stops the run at line
    166 with a KeyError or a TypeError: the browser is not started,
    nothing is fetched or sent, no file changes, and as the store is as it
    was, every later run stops there too. *)
Theorem bad_record_stops_the_run_before_the_browser (w : world) (l : list pyval) :
  persisted w = Ok (PList l) ->
  forallb has_url l = false ->
  (exists x, (x = KeyError \/ x = TypeError) /\ main e w = (Raise x, tick w)) /\
  persisted (snd (main e w)) = Ok (PList l).
Proof.
  intros Hl Hbad.
  destruct (collect_urls_unsound l Hbad) as (x & Hx & Hurls).
  assert (Hm : main e w = (Raise x, tick w)).
  { pose proof (main_run e w) as Hm. rewrite detect_run, Hl in Hm.
    unfold seen_urls_of in Hm. cbn [py_iter] in Hm. now rewrite Hurls in Hm. }
  split; [eauto|]. rewrite Hm. cbn [snd].
  now rewrite (persisted_store w (tick w) eq_refl).
Qed.

(** X9.  A store that holds a JSON value other than a list is never
    updated.  No run from it ends in [Processed] or changes the
    seen-opinions file; when the notifier reports success, the message has
    gone out and the run then stops at line 185 with an AttributeError. *)
Theorem store_that_is_no_list_is_never_updated (w : world) (seen : pyval) :
  persisted w = Ok seen ->
  (forall l, seen <> PList l) ->
  store (snd (main e w)) = store w /\
  fst (main e w) <> Ok Processed /\
  (notifier_report e w = Some true ->
   fst (main e w) = Raise AttributeError /\
   exists m, last (trace (snd (main e w))) = Some (EvSend m) /\ smtp e m = true).
Proof.
  intros Hseen Hnolist.
  pose proof (main_run e w) as Hm.
  pose proof (detect_frame e w) as (Hf & _ & _).
  unfold notifier_report.
  destruct (detect e w) as [[[seen' new_opinions]|x] w1] eqn:Hdet; cbn [fst snd] in *.
  - assert (Hs1 : store w1 = store w) by (unfold store; now rewrite Hf).
    apply detect_seen in Hdet. rewrite Hseen in Hdet. injection Hdet as <-.
    destruct new_opinions as [|op rest].
    { rewrite Hm. cbn [fst snd]. split; [exact Hs1|]. split; discriminate. }
    destruct Hm as (paths & w2 & sent & w3 & Hd & Hsend & Hs2 & Hf3 & Hm).
    assert (Hs3 : store w3 = store w) by (unfold store in *; congruence).
    assert (Hext : py_extend seen (op :: rest) = Raise AttributeError).
    { destruct seen as [| | | | |l|]; try reflexivity. now destruct (Hnolist l). }
    rewrite Hm, Hext, Hd, Hsend.
    destruct sent; cbn [fst snd].
    + split; [exact Hs3|]. split; [discriminate|]. intros _. split; [reflexivity|].
      destruct (send_email_run e (op :: rest) paths w2) as [Hno|(m & Hyes & _ & _)].
      * rewrite Hno in Hsend. discriminate.
      * rewrite Hyes in Hsend. injection Hsend as Hacc <-.
        exists m. split; [|exact Hacc]. cbn [trace emit]. apply last_snoc.
    + split; [exact Hs3|]. split; discriminate.
  - rewrite Hm. cbn [fst snd]. split; [unfold store; now rewrite Hf|].
    split; discriminate.
Qed.

(** X10.  A browser that cannot be started, or cannot be shut down, ends
    the run with the exception, whatever the page showed: no file changes
    and nothing is fetched or sent. *)
Theorem browser_failure_aborts_the_run (w : world) :
  setup_ok (page e) && quit_ok (page e) = false ->
  (exists x, fst (main e w) = Raise x) /\
  files (snd (main e w)) = files w /\
  trace (snd (main e w)) = trace w.
Proof.
  intros Hbrowser.
  pose proof (main_run e w) as Hm.
  pose proof (detect_frame e w) as (Hf & _ & Htr).
  destruct (detect e w) as [[[seen new_opinions]|x] w1] eqn:Hdet; cbn [fst snd] in *.
  - apply detect_new in Hdet as (_ & Hsetup & Hquit & _).
    rewrite Hsetup, Hquit in Hbrowser. discriminate.
  - rewrite Hm. cbn [fst snd]. eauto.
Qed.


End Aborts.

(** ** A failed send is tried again *)

Lemma new_opinions_of_links e n links seen_urls :
  map (fun op => (title op, url op)) (new_opinions_of (stamp e n links) seen_urls) =
  List.filter (fun tu => negb (str_in (snd tu) seen_urls)) links.
Proof.
  revert n. induction links as [|[t u] r IH]; intros n; [reflexivity|].
  unfold new_opinions_of in *. cbn [stamp List.filter fst snd url].
  destruct (negb (str_in u seen_urls)); cbn [map title url]; now rewrite IH.
Qed.

Section Retry.

Context {codec : JsonCodec}.

(** X12.  Nothing is lost when the message could not be sent: the store is
    as before, and a later run against the same page finds the same
    opinions new again, with the same titles and urls in the same order,
    whatever the clock shows then. *)
Theorem failed_send_is_retried (e e' : env) (w : world) :
  fst (main e w) = Ok SendFailed ->
  page e' = page e ->
  exists new_opinions new_opinions',
    diffed e w = Some new_opinions /\
    new_opinions <> [] /\
    store (snd (main e w)) = store w /\
    diffed e' (snd (main e w)) = Some new_opinions' /\
    map (fun op => (title op, url op)) new_opinions' =
    map (fun op => (title op, url op)) new_opinions.
Proof.
  intros Hfail Hpage.
  pose proof (main_run e w) as Hm.
  pose proof (detect_frame e w) as (Hf & _ & _).
  unfold diffed at 1.
  destruct (detect e w) as [[[seen new_opinions]|x] w1] eqn:Hdet; cbn [fst snd] in *;
    [|rewrite Hm in Hfail; discriminate].
  destruct new_opinions as [|op rest]; [rewrite Hm in Hfail; discriminate|].
  destruct Hm as (paths & w2 & sent & w3 & _ & _ & Hs2 & Hf3 & Hm).
  rewrite Hm in Hfail |- *. clear Hm.
  assert (Hs3 : store w3 = store w) by (unfold store in *; congruence).
  destruct sent.
  { destruct (py_extend seen (op :: rest)); discriminate. }
  cbn [snd].
  apply detect_new in Hdet as (Hseen & Hsetup & Hquit & urls & Hurls & Hnew).
  exists (op :: rest),
    (new_opinions_of (stamp e' (S (ticks w3)) (candidates (page e))) urls).
  split; [reflexivity|]. split; [discriminate|]. split; [exact Hs3|]. split.
  - unfold diffed. rewrite detect_run, (persisted_store w w3 Hs3), Hseen, Hurls.
    rewrite scrape_run, Hpage, Hsetup, Hquit. reflexivity.
  - rewrite Hnew, !new_opinions_of_links. reflexivity.
Qed.

End Retry.

(** ** The records the renderer returns *)

Lemma prefix_lower n : forall h,
  String.prefix n h = true -> String.prefix (lower n) (lower h) = true.
Proof.
  induction n as [|a n IH]; intros h; [intros _; apply prefix_empty|].
  destruct h as [|b h]; [discriminate|].
  cbn [String.prefix lower].
  destruct (ascii_dec a b) as [->|]; [|discriminate].
  intros H. destruct (ascii_dec (lower_ascii b) (lower_ascii b)); [now apply IH|contradiction].
Qed.

Lemma contains_lower n h :
  contains n h = true -> contains (lower n) (lower h) = true.
Proof.
  induction h as [|c h IH].
  - cbn [contains]. destruct (String.prefix n EmptyString) eqn:Hp; [|discriminate].
    intros _. apply contains_prefix. now apply (prefix_lower n EmptyString).
  - cbn [contains]. destruct (String.prefix n (String c h)) eqn:Hp.
    + intros _. apply contains_prefix. now apply (prefix_lower n (String c h)).
    + intros H. cbn [lower contains]. rewrite (IH H).
      now destruct (String.prefix (lower n) (String (lower_ascii c) (lower h))).
Qed.

Lemma rstrip_idem s : rstrip (rstrip s) = rstrip s.
Proof.
  induction s as [|c s IH]; [reflexivity|].
  cbn [rstrip]. destruct (rstrip s) as [|d r] eqn:Hr.
  - destruct (is_space c) eqn:Hc; [reflexivity|]. cbn [rstrip]. now rewrite Hc.
  - cbn [rstrip] in IH |- *. now rewrite IH.
Qed.

Lemma rstrip_head c r :
  is_space c = false -> exists r', rstrip (String c r) = String c r'.
Proof.
  intros Hc. cbn [rstrip]. rewrite Hc. destruct (rstrip r); eauto.
Qed.

Lemma lstrip_head s :
  lstrip s = EmptyString \/ exists c r, lstrip s = String c r /\ is_space c = false.
Proof.
  induction s as [|c s IH]; [now left|].
  cbn [lstrip]. destruct (is_space c) eqn:Hc; [exact IH|]. right. eauto.
Qed.

(** [strip] removes all the surrounding white space at once. *)
Lemma strip_idem s : strip (strip s) = strip s.
Proof.
  unfold strip. destruct (lstrip_head s) as [->|(c & r & -> & Hc)]; [reflexivity|].
  destruct (rstrip_head c r Hc) as (r' & Hr).
  rewrite Hr at 1. cbn [lstrip]. rewrite Hc, <- Hr. apply rstrip_idem.
Qed.

Lemma candidates_kept b tu :
  In tu (candidates b) ->
  exists a, In a (dom b) /\ readable a = true /\ href a = Some (snd tu) /\
            strip (text a) = fst tu /\ truthy (fst tu) = true /\
            contains ".pdf" (lower (snd tu)) = true.
Proof.
  assert (Hprim : In tu (primary_pass b) -> exists a, In a (dom b) /\
            readable a = true /\ href a = Some (snd tu) /\ strip (text a) = fst tu /\
            truthy (fst tu) = true /\ contains ".pdf" (lower (snd tu)) = true).
  { rewrite primary_pass_filter. intros H.
    apply in_map_iff in H as (a & <- & Ha). apply List.filter_In in Ha as [Ha Hk].
    exists a. unfold primary_keeps in Hk. unfold link_of. cbn [fst snd].
    destruct (href a) as [h|]; [|now rewrite Bool.andb_false_r in Hk].
    apply andb_prop in Hk as [Hrd Hk]. apply andb_prop in Hk as [Hk Ht].
    apply andb_prop in Hk as [Hpdf _].
    repeat split; trivial. exact (contains_lower ".pdf" h Hpdf). }
  assert (Hfall : In tu (fallback_pass b) -> exists a, In a (dom b) /\
            readable a = true /\ href a = Some (snd tu) /\ strip (text a) = fst tu /\
            truthy (fst tu) = true /\ contains ".pdf" (lower (snd tu)) = true).
  { rewrite fallback_pass_filter. intros H.
    apply in_map_iff in H as (a & <- & Ha). apply List.filter_In in Ha as [Ha Hk].
    exists a. unfold fallback_keeps in Hk. unfold link_of. cbn [fst snd].
    destruct (href a) as [h|]; [|now rewrite Bool.andb_false_r in Hk].
    apply andb_prop in Hk as [Hrd Hk]. apply andb_prop in Hk as [Hpdf Ht].
    repeat split; trivial. }
  unfold candidates.
  destruct (get_ok b && find_pdf_ok b); [|contradiction].
  destruct (primary_pass b) as [|k kept] eqn:Hp; [|exact Hprim].
  destruct (find_all_ok b); [exact Hfall|contradiction].
Qed.

Section Records.

Variable e : env.

(** X13.  Every record the renderer returns comes from an anchor of the
    page that could be read: its url is that anchor's target and contains
    [.pdf] when case is ignored, and its title is the anchor's text
    without surrounding white space, which is not empty. *)
Theorem scraped_records_are_titled_pdf_links (w : world) (opinions : list Opinion)
    (op : Opinion) :
  fst (scrape_chancery_opinions e w) = Ok opinions ->
  In op opinions ->
  title op <> EmptyString /\
  strip (title op) = title op /\
  contains ".pdf" (lower (url op)) = true /\
  exists a, In a (dom (page e)) /\ readable a = true /\
            href a = Some (url op) /\ strip (text a) = title op.
Proof.
  rewrite scrape_run.
  destruct (setup_ok (page e)); [|discriminate].
  destruct (quit_ok (page e)); [|discriminate].
  cbn [fst]. intros H Hop. injection H as <-.
  assert (Hin : In (title op, url op) (candidates (page e))).
  { rewrite <- (stamp_links e (ticks w) (candidates (page e))).
    apply in_map_iff. exists op. split; [reflexivity|exact Hop]. }
  apply candidates_kept in Hin as (a & Ha & Hrd & Hh & Ht & Hne & Hpdf).
  cbn [fst snd] in *.
  split; [intros Heq; rewrite Heq in Hne; discriminate|].
  split; [rewrite <- Ht; apply strip_idem|].
  split; [exact Hpdf|]. exists a. auto.
Qed.

(** X14.  The renderer writes no file and sends nothing; when it returns,
    it has read the clock once for each record, and the records carry
    these readings in order. *)
Theorem renderer_only_reads_the_clock (w : world) :
  files (snd (scrape_chancery_opinions e w)) = files w /\
  downloads_dir (snd (scrape_chancery_opinions e w)) = downloads_dir w /\
  trace (snd (scrape_chancery_opinions e w)) = trace w /\
  forall opinions,
    fst (scrape_chancery_opinions e w) = Ok opinions ->
    ticks (snd (scrape_chancery_opinions e w)) = ticks w + length opinions /\
    map date_found opinions = map (clock_iso e) (seq (ticks w) (length opinions)).
Proof.
  rewrite scrape_run.
  destruct (setup_ok (page e)); [|cbn [fst snd]; repeat split; discriminate].
  cbn [fst snd add_ticks files downloads_dir trace ticks].
  repeat split; trivial.
  - destruct (quit_ok (page e)); [|discriminate].
    injection H as <-. now rewrite stamp_length.
  - destruct (quit_ok (page e)); [|discriminate].
    injection H as <-. now rewrite stamp_dates, stamp_length.
Qed.

End Records.

(** ** The notifier's contract (lines 127-159) *)

Lemma smtp_delivered e m : smtp e m = true -> mail e m = Delivered.
Proof. unfold smtp. now destruct (mail e m). Qed.

Lemma smtp_failed e m :
  smtp e m = false -> mail e m = NoSession \/ mail e m = Refused \/ mail e m = QuitFailed.
Proof. unfold smtp. destruct (mail e m); auto. discriminate. Qed.

Section Notifier.

Variable e : env.

(** X15.  The notifier never raises and changes no file.  It reads the
    clock once.  It returns [True] exactly when it attempted one mail
    session and that session ran through: the message goes from
    [EMAIL_FROM] to [EMAIL_TO], carries the day of that clock reading in
    its subject, and its body is written from the new records.  It
    returns [False] when no session was attempted, or when the one session
    attempted raised at any step: before the message was handed over, when
    it was handed over, or after the server had taken it. *)
Theorem send_email_reports_the_session (new_opinions : list Opinion)
    (pdf_paths : list string) (w : world) :
  exists sent w',
    send_email e new_opinions pdf_paths w = (Ok sent, w') /\
    files w' = files w /\
    ticks w' = S (ticks w) /\
    (sent = true ->
     exists m, trace w' = (trace w ++ [EvSend m])%list /\ mail e m = Delivered /\
               e_from m = EMAIL_FROM e /\ e_to m = EMAIL_TO e /\
               e_subject m =
                 "New Delaware Court of Chancery Opinions - " +:+ clock_ymd e (ticks w) /\
               e_body m = email_body new_opinions) /\
    (sent = false ->
     trace w' = trace w \/
     exists m, trace w' = (trace w ++ [EvSend m])%list /\
               (mail e m = NoSession \/ mail e m = Refused \/ mail e m = QuitFailed)).
Proof.
  unfold send_email, now_ymd, smtp_send. st_unfold.
  pose proof (attach_all_state pdf_paths (tick w)) as Hst.
  destruct (attach_all pdf_paths (tick w)) as [[atts|x] w1]; cbn [snd] in Hst; subst w1.
  - destruct (smtp e _) eqn:Hm.
    + do 2 eexists. split; [reflexivity|]. split; [reflexivity|]. split; [reflexivity|].
      split; [|discriminate]. intros _. eexists. split; [reflexivity|].
      split; [now apply smtp_delivered|]. repeat split.
    + do 2 eexists. split; [reflexivity|]. split; [reflexivity|]. split; [reflexivity|].
      split; [discriminate|]. intros _. right. eexists. split; [reflexivity|].
      now apply smtp_failed.
  - do 2 eexists. split; [reflexivity|]. split; [reflexivity|]. split; [reflexivity|].
    split; [discriminate|]. intros _. now left.
Qed.

End Notifier.

(** ** The file name of a url (line 179) *)

Lemma append_assoc a b c : (a +:+ b) +:+ c = a +:+ (b +:+ c).
Proof.
  induction a as [|x a IH]; [now rewrite !append_empty|].
  now rewrite !append_cons, IH.
Qed.

Lemma split_last_decompose s : forall cur,
  exists prefix,
    cur +:+ s = prefix +:+ split_last cur s /\
    (prefix = EmptyString \/ exists p, prefix = p +:+ "/").
Proof.
  induction s as [|c s IH]; intros cur.
  - exists EmptyString. cbn [split_last]. rewrite append_empty_r, append_empty. auto.
  - cbn [split_last]. destruct (Ascii.eqb c "/") eqn:Hc.
    + apply Ascii.eqb_eq in Hc as ->.
      destruct (IH EmptyString) as (p & Hp & Hend).
      rewrite append_empty in Hp.
      exists ((cur +:+ "/") +:+ p). split.
      * rewrite append_assoc, <- Hp. symmetry. apply append_assoc_cons.
      * right. destruct Hend as [->|(q & ->)].
        -- exists cur. now rewrite append_empty_r.
        -- exists ((cur +:+ "/") +:+ q). symmetry. apply append_assoc.
    + destruct (IH (cur +:+ String c EmptyString)) as (p & Hp & Hend).
      exists p. split; [|exact Hend]. now rewrite <- Hp, append_assoc_cons.
Qed.

Lemma split_last_after_slash name p : forall cur,
  contains "/" name = false -> split_last cur (p +:+ "/" +:+ name) = name.
Proof.
  intros cur Hname. revert cur. induction p as [|c p IH]; intros cur.
  - rewrite append_empty. change ("/" +:+ name) with (String "/" name).
    cbn [split_last Ascii.eqb Bool.eqb]. rewrite (split_last_plain name EmptyString Hname).
    apply append_empty.
  - rewrite append_cons. cbn [split_last]. destruct (Ascii.eqb c "/"); apply IH.
Qed.

(** X16.  The file name taken from a url is what follows its last slash:
    it holds no slash, the url is that name behind a prefix that is empty
    or ends in a slash, and a name without a slash put behind a slash is
    the name found again. *)
Theorem file_name_is_what_follows_the_last_slash (u : string) :
  contains "/" (last_segment u) = false /\
  (exists prefix, u = prefix +:+ last_segment u /\
     (prefix = EmptyString \/ exists p, prefix = p +:+ "/")) /\
  (forall p name, contains "/" name = false ->
     last_segment (p +:+ "/" +:+ name) = name).
Proof.
  split; [apply last_segment_no_slash|]. split.
  - destruct (split_last_decompose u EmptyString) as (prefix & Hp & Hend).
    rewrite append_empty in Hp. exists prefix. auto.
  - intros p name Hname. now apply split_last_after_slash.
Qed.

(** ** A whole run that delivers *)

Section EndToEnd.

Context {codec : JsonCodec}.
Variable e : env.


End EndToEnd.

(** * The monitor on the scenarios *)

(** ** The store *)

(** The store holds one record: the load returns that list. *)
Example load_returns_the_stored_list :
  store (disk_with (PList [opinion_dict seen_a])) =
    Some (compact_dumps (PList [opinion_dict seen_a])) /\
  load_seen_opinions (disk_with (PList [opinion_dict seen_a])) =
    (Ok (PList [opinion_dict seen_a]), disk_with (PList [opinion_dict seen_a])) /\
  PList [opinion_dict seen_a] <> PList [].
Proof.
  split; [reflexivity|]. split; [|discriminate].
  rewrite load_run. f_equal.
Qed.

(** C9, as stated, fails here.  The seen-opinions file holds one integer
    of 4301 digits, which is well-formed JSON.  The load returns neither
    the empty list nor a value, and what it raises is no parse error: the
    run ends with a [ValueError]. *)
Lemma load_raises_on_a_long_integer :
  store (disk_holding long_integer) = Some long_integer /\
  String.length long_integer = 4301 /\
  all_digits long_integer = true /\
  load_seen_opinions (disk_holding long_integer) =
    (Raise ValueError, disk_holding long_integer) /\
  main second_day (disk_holding long_integer) =
    (Raise ValueError, tick (disk_holding long_integer)).
Proof.
  split; [reflexivity|]. split; [vm_compute; reflexivity|].
  split; [vm_compute; reflexivity|]. split; vm_compute; reflexivity.
Qed.

(** ** The renderer *)

(** C6, as stated, fails here.  The first anchor cannot be read: the
    exception is raised during the extraction and swallowed, and the
    renderer still returns the second anchor, not an empty sequence. *)
Lemma unreadable_anchor_is_skipped_only :
  read_link stale_link = Raise StaleElementReferenceException /\
  In stale_link (List.filter has_pdf [stale_link; in_re_b]) /\
  fst (scrape_chancery_opinions
         (scenario (page_of [stale_link; in_re_b]) server_without_b (fun _ => true))
         empty_disk) =
    Ok [mkOpinion "In re B" (COURT +:+ "chancery/b.pdf") "2024-05-01T09:00:0"].
Proof.
  split; [reflexivity|]. split; [left; reflexivity|].
  vm_compute. reflexivity.
Qed.

(** The browser cannot be started: the exception leaves the renderer. *)
Example driver_failure_propagates :
  fst (scrape_chancery_opinions
         (scenario (mkBrowser false true true true true [in_re_a])
                   server_without_b (fun _ => true))
         empty_disk) = Raise WebDriverException.
Proof. reflexivity. Qed.

(** C5 on a page without any chancery link: the fallback keeps the press
    release, whose target ends in upper-case [.PDF]. *)
Lemma renderer_keeps_primary_else_fallback_witness :
  browser_works (page_of [home_link; press_release]) = true /\
  exists opinions,
    fst (scrape_chancery_opinions
           (scenario (page_of [home_link; press_release]) server_without_b (fun _ => true))
           empty_disk) = Ok opinions /\
    (List.filter primary_keeps [home_link; press_release] <> [] ->
     map (fun op => (title op, url op)) opinions =
       map link_of (List.filter primary_keeps [home_link; press_release])) /\
    (List.filter primary_keeps [home_link; press_release] = [] ->
     map (fun op => (title op, url op)) opinions =
       map link_of (List.filter fallback_keeps [home_link; press_release])) /\
    map date_found opinions =
      map (fun n => "2024-05-01T09:00:" +:+ pretty n) (seq 0 (length opinions)).
Proof.
  split; [reflexivity|].
  exact (renderer_keeps_primary_else_fallback
           (scenario (page_of [home_link; press_release]) server_without_b (fun _ => true))
           empty_disk eq_refl).
Defined.

(** C6 on a browser whose XPath search fails: no candidate, no exception. *)
Lemma renderer_contains_exceptions_witness :
  exists opinions,
    fst (scrape_chancery_opinions
           (scenario (mkBrowser true true false true true [in_re_a; stale_link])
                     server_without_b (fun _ => true))
           empty_disk) = Ok opinions /\
    opinions = [].
Proof.
  destruct (renderer_contains_exceptions
              (scenario (mkBrowser true true false true true [in_re_a; stale_link])
                        server_without_b (fun _ => true))
              empty_disk eq_refl eq_refl) as (opinions & Hrun & Hempty & _).
  exists opinions. split; [exact Hrun|].
  apply Hempty. right. left. reflexivity.
Defined.

(** ** Whole runs *)


(** C4 at this input: both documents are fetched, yet the one message
    sent attaches the document of 2024 twice and the one of 2023 never. *)
Lemma same_file_name_attaches_one_document_twice :
  http same_file_name (COURT +:+ "chancery/2023/order.pdf") =
    Some ("%PDF " +:+ COURT +:+ "chancery/2023/order.pdf") /\
  http same_file_name (COURT +:+ "chancery/2024/order.pdf") =
    Some ("%PDF " +:+ COURT +:+ "chancery/2024/order.pdf") /\
  fst (main same_file_name empty_disk) = Ok Processed /\
  sent_attachments (trace (snd (main same_file_name empty_disk))) =
    [[("order.pdf", "%PDF " +:+ COURT +:+ "chancery/2024/order.pdf");
      ("order.pdf", "%PDF " +:+ COURT +:+ "chancery/2024/order.pdf")]].
Proof.
  split; [reflexivity|]. split; [reflexivity|].
  split; vm_compute; reflexivity.
Qed.

(** C7 at this input: the store reached after one run from the empty
    store holds two records that share their url. *)
Lemma repeated_link_is_persisted_twice :
  store empty_disk = None /\
  fst (main linked_twice empty_disk) = Ok Processed /\
  persisted (snd (main linked_twice empty_disk)) =
    Ok (PList [opinion_dict (mkOpinion "In re A" (COURT +:+ "chancery/a.pdf")
                                       "2024-05-01T09:00:1");
               opinion_dict (mkOpinion "In re A (PDF)" (COURT +:+ "chancery/a.pdf")
                                       "2024-05-01T09:00:2")]).
Proof.
  split; [reflexivity|]. split; vm_compute; reflexivity.
Qed.

(** X2 after one run from the empty disk against a page with two
    different opinions. *)
Lemma distinct_targets_keep_urls_unique_witness :
  exists records,
    persisted (snd (main second_day empty_disk)) =
      Ok (PList (map opinion_dict records)) /\
    NoDup (map url records).
Proof.
  apply distinct_targets_keep_urls_unique.
  apply reach_run; [apply reach_fresh; reflexivity|].
  unfold distinct_targets. apply (bool_decide_unpack _). vm_compute. exact I.
Defined.

(** X3 on the second day: the run delivers the new opinion, and a run
    right after it finds nothing new. *)
Lemma second_run_finds_nothing_new_witness :
  fst (main second_day (disk_with (PList [opinion_dict seen_a]))) = Ok Processed /\
  diffed second_day (snd (main second_day (disk_with (PList [opinion_dict seen_a])))) =
    Some [] /\
  fst (main second_day (snd (main second_day (disk_with (PList [opinion_dict seen_a]))))) =
    Ok NoNew.
Proof.
  assert (H : fst (main second_day (disk_with (PList [opinion_dict seen_a]))) =
              Ok Processed) by (vm_compute; reflexivity).
  exact (conj H (second_run_finds_nothing_new second_day second_day
                   (disk_with (PList [opinion_dict seen_a])) H eq_refl)).
Defined.

(** The transport refuses the message: the run ends in [SendFailed] and
    the store is as it was. *)
Example refused_message_leaves_store :
  fst (main (scenario (page_of [in_re_a; in_re_b]) server_without_b (fun _ => false))
            (disk_with (PList [opinion_dict seen_a]))) = Ok SendFailed /\
  store (snd (main (scenario (page_of [in_re_a; in_re_b]) server_without_b (fun _ => false))
                   (disk_with (PList [opinion_dict seen_a])))) =
    store (disk_with (PList [opinion_dict seen_a])).
Proof. split; vm_compute; reflexivity. Qed.

(** ** Further runs *)

(** X4 on the record found on the second day. *)
Lemma email_body_names_every_record_witness :
  In found_b [seen_a; found_b] /\
  contains (title found_b) (email_body [seen_a; found_b]) = true /\
  contains (url found_b) (email_body [seen_a; found_b]) = true.
Proof.
  assert (H : In found_b [seen_a; found_b]) by (right; left; reflexivity).
  exact (conj H (email_body_names_every_record [seen_a; found_b] found_b H)).
Defined.

(** X5 on the first download of the first day. *)
Lemma downloads_stay_in_downloads_directory_witness :
  download_pdf first_day (url found_a_first) (last_segment (url found_a_first)) empty_disk =
    (Ok (Some "downloads/a.pdf"),
     snd (download_pdf first_day (url found_a_first) (last_segment (url found_a_first))
            empty_disk)) /\
  ("downloads/a.pdf" = DOWNLOADS \/
   exists name, "downloads/a.pdf" = DOWNLOADS +:+ "/" +:+ name /\
                contains "/" name = false /\ name <> "..") /\
  (forall q, q <> "downloads/a.pdf" ->
     files (snd (download_pdf first_day (url found_a_first)
                   (last_segment (url found_a_first)) empty_disk)) !! q =
     files empty_disk !! q) /\
  "downloads/a.pdf" <> SEEN_OPINIONS_FILE.
Proof.
  assert (H : download_pdf first_day (url found_a_first)
                (last_segment (url found_a_first)) empty_disk =
              (Ok (Some "downloads/a.pdf"),
               snd (download_pdf first_day (url found_a_first)
                      (last_segment (url found_a_first)) empty_disk)))
    by (vm_compute; reflexivity).
  exact (conj H (downloads_stay_in_downloads_directory first_day _ _ _ _ H)).
Defined.

(** X6 on a url that ends in a slash: the body is written to
    [downloads] itself and attached under that name. *)
Lemma downloaded_document_is_attached_witness :
  download_pdf first_day (COURT +:+ "chancery/") (last_segment (COURT +:+ "chancery/"))
    empty_disk =
    (Ok (Some "downloads"),
     snd (download_pdf first_day (COURT +:+ "chancery/")
            (last_segment (COURT +:+ "chancery/")) empty_disk)) /\
  exists content,
    http first_day (COURT +:+ "chancery/") = Some content /\
    attach "downloads"
      (snd (download_pdf first_day (COURT +:+ "chancery/")
              (last_segment (COURT +:+ "chancery/")) empty_disk)) =
      (Ok [(last_segment "downloads", content)],
       snd (download_pdf first_day (COURT +:+ "chancery/")
              (last_segment (COURT +:+ "chancery/")) empty_disk)) /\
    last_segment "downloads" =
      if String.eqb (last_segment (COURT +:+ "chancery/")) "" ||
         String.eqb (last_segment (COURT +:+ "chancery/")) "."
      then DOWNLOADS else last_segment (COURT +:+ "chancery/").
Proof.
  assert (H : download_pdf first_day (COURT +:+ "chancery/")
                (last_segment (COURT +:+ "chancery/")) empty_disk =
              (Ok (Some "downloads"),
               snd (download_pdf first_day (COURT +:+ "chancery/")
                      (last_segment (COURT +:+ "chancery/")) empty_disk)))
    by (vm_compute; reflexivity).
  exact (conj H (downloaded_document_is_attached first_day _ _ _ _ H)).
Defined.

(** X7 on the second day's server, which has the first document only. *)
Lemma distinct_names_attach_the_fetched_documents_witness :
  files empty_disk !! DOWNLOADS = None /\
  downloads_dir empty_disk || fs_accepts second_day DOWNLOADS = true /\
  Forall (fun op => proper_name (last_segment (url op)) = true) [seen_a; found_b] /\
  Forall (fun op => fs_accepts second_day (path_of op) = true)
         (List.filter (fetched second_day) [seen_a; found_b]) /\
  NoDup (map path_of (List.filter (fetched second_day) [seen_a; found_b])) /\
  exists w2 m,
    download_all second_day [seen_a; found_b] [] empty_disk =
      (Ok (map path_of (List.filter (fetched second_day) [seen_a; found_b])), w2) /\
    send_email second_day [seen_a; found_b]
      (map path_of (List.filter (fetched second_day) [seen_a; found_b])) w2 =
      (Ok (smtp second_day m), emit (EvSend m) (tick w2)) /\
    e_body m = email_body [seen_a; found_b] /\
    e_attachments m =
      map (document_of second_day) (List.filter (fetched second_day) [seen_a; found_b]).
Proof.
  assert (H1 : files empty_disk !! DOWNLOADS = None) by reflexivity.
  assert (H2 : Forall (fun op => proper_name (last_segment (url op)) = true)
                 [seen_a; found_b])
    by (repeat constructor).
  assert (H3 : NoDup (map path_of (List.filter (fetched second_day) [seen_a; found_b])))
    by (apply (bool_decide_unpack _); vm_compute; exact I).
  assert (H4 : downloads_dir empty_disk || fs_accepts second_day DOWNLOADS = true)
    by reflexivity.
  assert (H5 : Forall (fun op => fs_accepts second_day (path_of op) = true)
                 (List.filter (fetched second_day) [seen_a; found_b]))
    by (repeat constructor).
  exact (conj H1 (conj H4 (conj H2 (conj H5 (conj H3
    (distinct_names_attach_the_fetched_documents second_day [seen_a; found_b] empty_disk
       H1 H4 H2 H5 H3)))))).
Defined.

(** X8 on a store whose only record lost its url. *)
Lemma bad_record_stops_the_run_before_the_browser_witness :
  persisted (disk_with (PList [record_without_url])) = Ok (PList [record_without_url]) /\
  forallb has_url [record_without_url] = false /\
  (exists x, (x = KeyError \/ x = TypeError) /\
     main second_day (disk_with (PList [record_without_url])) =
       (Raise x, tick (disk_with (PList [record_without_url])))) /\
  persisted (snd (main second_day (disk_with (PList [record_without_url])))) =
    Ok (PList [record_without_url]).
Proof.
  assert (H1 : persisted (disk_with (PList [record_without_url])) =
               Ok (PList [record_without_url])) by (vm_compute; reflexivity).
  assert (H2 : forallb has_url [record_without_url] = false) by reflexivity.
  exact (conj H1 (conj H2
    (bad_record_stops_the_run_before_the_browser second_day
       (disk_with (PList [record_without_url])) [record_without_url] H1 H2))).
Defined.

(** X9 on a store that holds the empty object [{}]: everything on the
    page is new, the message goes out, and the run stops at line 185. *)
Lemma store_that_is_no_list_is_never_updated_witness :
  persisted (disk_with (PDict [])) = Ok (PDict []) /\
  notifier_report second_day (disk_with (PDict [])) = Some true /\
  store (snd (main second_day (disk_with (PDict [])))) = store (disk_with (PDict [])) /\
  fst (main second_day (disk_with (PDict []))) = Raise AttributeError.
Proof.
  assert (H1 : persisted (disk_with (PDict [])) = Ok (PDict []))
    by (vm_compute; reflexivity).
  assert (H2 : forall l, PDict [] <> PList l) by (intros l; discriminate).
  assert (H3 : notifier_report second_day (disk_with (PDict [])) = Some true)
    by (vm_compute; reflexivity).
  destruct (store_that_is_no_list_is_never_updated second_day (disk_with (PDict []))
              (PDict []) H1 H2) as (Hstore & _ & Hsent).
  exact (conj H1 (conj H3 (conj Hstore (proj1 (Hsent H3))))).
Defined.

(** X10 on a browser that cannot be shut down. *)
Lemma browser_failure_aborts_the_run_witness :
  setup_ok (page browser_hangs) && quit_ok (page browser_hangs) = false /\
  (exists x, fst (main browser_hangs empty_disk) = Raise x) /\
  files (snd (main browser_hangs empty_disk)) = files empty_disk /\
  trace (snd (main browser_hangs empty_disk)) = trace empty_disk.
Proof.
  assert (H : setup_ok (page browser_hangs) && quit_ok (page browser_hangs) = false)
    by reflexivity.
  exact (conj H (browser_failure_aborts_the_run browser_hangs empty_disk H)).
Defined.


(** X12: the transport is down on one day and the page is the same on
    the next. *)
Lemma failed_send_is_retried_witness :
  fst (main transport_down (disk_with (PList [opinion_dict seen_a]))) = Ok SendFailed /\
  exists new_opinions new_opinions',
    diffed transport_down (disk_with (PList [opinion_dict seen_a])) = Some new_opinions /\
    new_opinions <> [] /\
    store (snd (main transport_down (disk_with (PList [opinion_dict seen_a])))) =
      store (disk_with (PList [opinion_dict seen_a])) /\
    diffed second_day (snd (main transport_down (disk_with (PList [opinion_dict seen_a])))) =
      Some new_opinions' /\
    map (fun op => (title op, url op)) new_opinions' =
    map (fun op => (title op, url op)) new_opinions.
Proof.
  assert (H : fst (main transport_down (disk_with (PList [opinion_dict seen_a]))) =
              Ok SendFailed) by (vm_compute; reflexivity).
  exact (conj H (failed_send_is_retried transport_down second_day
                   (disk_with (PList [opinion_dict seen_a])) H eq_refl)).
Defined.

(** X13 on the second anchor of the page, whose text is padded. *)
Lemma scraped_records_are_titled_pdf_links_witness :
  fst (scrape_chancery_opinions first_day (tick empty_disk)) =
    Ok [found_a_first; found_b_first] /\
  In found_b_first [found_a_first; found_b_first] /\
  title found_b_first <> EmptyString /\
  strip (title found_b_first) = title found_b_first /\
  contains ".pdf" (lower (url found_b_first)) = true /\
  exists a, In a (dom (page first_day)) /\ readable a = true /\
            href a = Some (url found_b_first) /\ strip (text a) = title found_b_first.
Proof.
  assert (H1 : fst (scrape_chancery_opinions first_day (tick empty_disk)) =
               Ok [found_a_first; found_b_first]) by (vm_compute; reflexivity).
  assert (H2 : In found_b_first [found_a_first; found_b_first])
    by (right; left; reflexivity).
  exact (conj H1 (conj H2
    (scraped_records_are_titled_pdf_links first_day (tick empty_disk)
       [found_a_first; found_b_first] found_b_first H1 H2))).
Defined.


(** ** The outside world says no *)

(** The server has the document, but its file name is longer than the
    file system takes: the download returns nothing and no file is
    written. *)
Example over_long_name_is_not_stored :
  http first_day long_named = Some ("%PDF " +:+ long_named) /\
  fst (download_pdf first_day long_named (last_segment long_named) empty_disk) = Ok None /\
  files (snd (download_pdf first_day long_named (last_segment long_named) empty_disk)) =
    files empty_disk.
Proof. split; [reflexivity|]. split; vm_compute; reflexivity. Qed.

(** The server took the message, yet the notifier reports failure: the
    session raised when the block was left. *)
Example accepted_message_is_reported_as_failure :
  exists m,
    send_email quit_unanswered [found_b] [] empty_disk =
      (Ok false, emit (EvSend m) (tick empty_disk)) /\
    accepted quit_unanswered m = true.
Proof. eexists. split; reflexivity. Qed.
